(** * Waitlist signup service: a shallow embedding of [api/main.py]

    The development models the signup orchestration of the waitlist
    API: the [waitlist] table with its unique index on [email], the
    scoped database connection [get_db_connection] with its conversion of
    driver errors, the Brevo contact-list adapter, the request handlers
    with the two exception handlers, the route table with the frontend
    route, startup, and the two diagnostic scripts.

    Conventions.
    - A Python [str] is the [string] of the bytes of its UTF-8 encoding,
      so a character outside ASCII is a sequence of bytes from 128 up (a
      [str] with a lone surrogate has no encoding and is no value of the
      model).  The operations of module [PyStr] are those of Python on
      ASCII text; what each does outside ASCII is said with its
      definition, and where a statement about raw input depends on the
      difference it carries the hypothesis [PyStr.is_ascii].
    - A [datetime] is an integer clock reading ([time]); the text
      [datetime.isoformat()] is kept symbolic in the JSON value [JIso].
    - Python exceptions are values of [exn]; a computation that may raise
      and that reads or writes the database is a function
      [world -> res A * world].
    - Everything the process cannot decide itself (clock readings,
      database reachability, the remote API's reply, requests that run in
      between) is supplied by an explicit environment record. *)

From Stdlib Require Import ZArith List String Ascii Bool Lia DecimalString Sorted.
Import ListNotations.

Open Scope string_scope.
Open Scope Z_scope.

(* ================================================================== *)
(** ** Python string operations used by the service *)
(* ================================================================== *)

Module PyStr.

(** The string holds ASCII characters only. *)
Fixpoint is_ascii (s : string) : bool :=
  match s with
  | EmptyString => true
  | String c s' => (nat_of_ascii c <? 128)%nat && is_ascii s'
  end.

(** [str.isspace] on one ASCII character: TAB..CR, FS..US and SPACE.
    No byte from 128 up is a space here; Python also counts as spaces
    some characters outside ASCII (U+0085, U+00A0, U+2000 and others). *)
Definition is_space (c : ascii) : bool :=
  let n := nat_of_ascii c in
  (((9 <=? n) && (n <=? 13)) || ((28 <=? n) && (n <=? 32)))%nat.

(** [str.lower] on one ASCII character; a byte from 128 up is left as
    it is. *)
Definition lower_char (c : ascii) : ascii :=
  let n := nat_of_ascii c in
  if ((65 <=? n) && (n <=? 90))%nat then ascii_of_nat (n + 32) else c.

Fixpoint map_chars (f : ascii -> ascii) (s : string) : string :=
  match s with
  | EmptyString => EmptyString
  | String c s' => String (f c) (map_chars f s')
  end.

(** [s.lower()]: the ASCII capitals are replaced by their small
    letters.  This is Python's result when [s] is ASCII, and also when
    the characters of [s] outside ASCII have no lower-case mapping of
    their own (small letters, digits, signs); capitals outside ASCII,
    which Python maps as well, are left unchanged here. *)
Definition lower (s : string) : string := map_chars lower_char s.

Fixpoint lstrip_by (p : ascii -> bool) (s : string) : string :=
  match s with
  | EmptyString => EmptyString
  | String c s' => if p c then lstrip_by p s' else s
  end.

Fixpoint rstrip_by (p : ascii -> bool) (s : string) : string :=
  match s with
  | EmptyString => EmptyString
  | String c s' =>
      match rstrip_by p s' with
      | EmptyString => if p c then EmptyString else String c EmptyString
      | r => String c r
      end
  end.

Definition strip_by (p : ascii -> bool) (s : string) : string :=
  lstrip_by p (rstrip_by p s).

(** [s.strip()]: exact when [s] neither starts nor ends with a space
    character from outside ASCII. *)
Definition strip (s : string) : string := strip_by is_space s.

Fixpoint mem_char (c : ascii) (chars : string) : bool :=
  match chars with
  | EmptyString => false
  | String d chars' => Ascii.eqb c d || mem_char c chars'
  end.

(** [s.strip(chars)] *)
Definition strip_chars (chars s : string) : string :=
  strip_by (fun c => mem_char c chars) s.

(** [sub in s] *)
Fixpoint contains (sub s : string) : bool :=
  prefix sub s ||
  match s with
  | EmptyString => false
  | String _ s' => contains sub s'
  end.

(** Longest prefix without whitespace, and what follows it. *)
Fixpoint break_space (s : string) : string * string :=
  match s with
  | EmptyString => (EmptyString, EmptyString)
  | String c s' =>
      if is_space c then (EmptyString, s)
      else let (w, rest) := break_space s' in (String c w, rest)
  end.

(** [s.split(maxsplit=1)]: split on runs of whitespace, at most once;
    the remainder keeps its trailing whitespace. *)
Definition split_max1 (s : string) : list string :=
  match lstrip_by is_space s with
  | EmptyString => []
  | s1 =>
      let (w, rest) := break_space s1 in
      match lstrip_by is_space rest with
      | EmptyString => [w]
      | r => [w; r]
      end
  end.

(** Truth value of a string: [bool(s)]. *)
Definition truthy (s : string) : bool :=
  match s with EmptyString => false | _ => true end.

(** [str(n)] for an integer. *)
Definition of_Z (n : Z) : string := NilZero.string_of_int (Z.to_int n).

Definition is_digit (c : ascii) : bool :=
  let n := nat_of_ascii c in ((48 <=? n) && (n <=? 57))%nat.

Definition digit_val (c : ascii) : Z := Z.of_nat (nat_of_ascii c) - 48.

(** Digits of an integer literal, most significant first; [after_digit]
    tells whether an underscore is allowed here (only between digits). *)
Fixpoint digits (after_digit : bool) (acc : Z) (s : string) : option Z :=
  match s with
  | EmptyString => if after_digit then Some acc else None
  | String c s' =>
      if is_digit c then digits true (10 * acc + digit_val c) s'
      else if Ascii.eqb c "_" then
        (if after_digit then digits false acc s' else None)
      else None
  end.

(** The whitespace [int] skips around a literal: TAB..CR and SPACE
    (the separators FS..US, which [str.strip] removes, are not among
    them). *)
Definition is_int_space (c : ascii) : bool :=
  let n := nat_of_ascii c in
  (((9 <=? n) && (n <=? 13)) || (n =? 32))%nat.

(** [int(s)] in base ten: surrounding whitespace, one optional sign,
    digits with single underscores between them.  [None] is
    [ValueError].  Exact when [s] is ASCII and has no more digits than
    the interpreter converts without a length check (640; beyond its
    limit, 4300 digits by default, Python raises [ValueError]); Python
    also reads digits and skips spaces from outside ASCII. *)
Definition to_Z (s : string) : option Z :=
  match strip_by is_int_space s with
  | String "-" d => option_map Z.opp (digits false 0 d)
  | String "+" d => digits false 0 d
  | d => digits false 0 d
  end.

End PyStr.

(* ================================================================== *)
(** ** Exceptions and fallible computations *)
(* ================================================================== *)

(** The classes of [psycopg2.Error] the service tells apart:
    [IntegrityError] (raised on a unique-index violation) and the
    rest. *)
Inductive pg_class : Type :=
| IntegrityError
| OperationalError
| OtherPgError.

(** The exceptions that occur in the request paths.  [Psycopg2Error]
    carries the driver's text ([pgcode], [pgerror]); [ApiException] is
    the Brevo SDK's error with the HTTP status, the reason phrase, the
    response body and the printed response headers ([None]: no
    headers); [HTTPException] is FastAPI's. *)
Inductive exn : Type :=
| Psycopg2Error (cls : pg_class) (pgerror : string)
| HTTPException (status_code : Z) (detail : string)
| ApiException (status : Z) (reason : string) (body : option string)
    (headers : option string)
| RuntimeError (msg : string)
| IndexError (msg : string)
| ValueError (msg : string)
| OtherException (msg : string).

Inductive res (A : Type) : Type :=
| Ok (a : A)
| Raise (e : exn).
Arguments Ok {A} a.
Arguments Raise {A} e.

Definition is_psycopg2_Error (e : exn) : bool :=
  match e with Psycopg2Error _ _ => true | _ => false end.

Definition is_IntegrityError (e : exn) : bool :=
  match e with Psycopg2Error IntegrityError _ => true | _ => false end.

Definition is_HTTPException (e : exn) : bool :=
  match e with HTTPException _ _ => true | _ => false end.

Definition is_ApiException (e : exn) : bool :=
  match e with ApiException _ _ _ _ => true | _ => false end.

Definition nl : string := String (ascii_of_nat 10) EmptyString.

(** [str(x)] for an optional string ([str(None)] is the text None). *)
Definition str_opt (o : option string) : string :=
  match o with Some s => s | None => "None" end.

(** [str(e)].  [HTTPException] prints as status and detail (Starlette);
    [ApiException] prints its status and reason, then the response
    headers and the response body, each on a line of its own when
    present. *)
Definition str_exn (e : exn) : string :=
  match e with
  | Psycopg2Error _ t => t
  | HTTPException c d => PyStr.of_Z c ++ ": " ++ d
  | ApiException st r b h =>
      "(" ++ PyStr.of_Z st ++ ")" ++ nl ++ "Reason: " ++ r ++ nl ++
      match h with
      | Some t => "HTTP response headers: " ++ t ++ nl
      | None => EmptyString
      end ++
      match b with
      | Some t => if PyStr.truthy t then "HTTP response body: " ++ t ++ nl
                  else EmptyString
      | None => EmptyString
      end
  | RuntimeError m | IndexError m | ValueError m | OtherException m => m
  end.

Definition HTTP_201_CREATED : Z := 201.
Definition HTTP_409_CONFLICT : Z := 409.
Definition HTTP_500_INTERNAL_SERVER_ERROR : Z := 500.

(* ================================================================== *)
(** ** Enumerations and the waitlist table *)
(* ================================================================== *)

Inductive WaitlistStatus : Type := PENDING | CONFIRMED | INVITED | ACTIVE.

(** [BrevoSyncStatus]; its member [PENDING] is written [SYNC_PENDING]
    here, apart from [WaitlistStatus.PENDING]. *)
Inductive BrevoSyncStatus : Type := SUCCESS | FAILED | SYNC_PENDING.

Definition BrevoSyncStatus_eqb (a b : BrevoSyncStatus) : bool :=
  match a, b with
  | SUCCESS, SUCCESS | FAILED, FAILED | SYNC_PENDING, SYNC_PENDING => true
  | _, _ => false
  end.

(** The string value of the enumeration member. *)
Definition BrevoSyncStatus_value (s : BrevoSyncStatus) : string :=
  match s with
  | SUCCESS => "success"
  | FAILED => "failed"
  | SYNC_PENDING => "pending"
  end.

Definition time : Type := Z.

(** One row of the table [waitlist]. *)
Record row : Type := mkRow {
  row_id : Z;
  email : string;
  name : option string;
  referral_source : option string;
  status : WaitlistStatus;
  brevo_contact_id : option string;
  brevo_sync_status : BrevoSyncStatus;
  brevo_synced_at : option time;
  created_at : time
}.

(** The values of one [INSERT INTO waitlist] statement, in column
    order; [id] is assigned by the table's sequence. *)
Record insert_values : Type := mkValues {
  v_email : string;
  v_name : option string;
  v_referral_source : option string;
  v_status : WaitlistStatus;
  v_brevo_contact_id : option string;
  v_brevo_sync_status : BrevoSyncStatus;
  v_brevo_synced_at : option time;
  v_created_at : time
}.

(** A contact attribute sent to Brevo. *)
Inductive attr : Type :=
| AttrStr (s : string)
| AttrInt (n : Z)
| AttrDate (t : time).

(** [sib_api_v3_sdk.CreateContact] *)
Record CreateContact : Type := mkCreateContact {
  cc_email : string;
  cc_attributes : list (string * attr);
  cc_list_ids : list Z;
  cc_update_enabled : bool
}.

(** What the process issues, in order: SQL statements and remote
    calls. *)
Inductive event : Type :=
| SqlSelectByEmail (e : string)
| SqlCount
| SqlInsert (v : insert_values)
| SqlCountUpTo (t : time)
| BrevoCreateContact (c : CreateContact)
| BrevoGetAccount.

(** The table, the sequence behind [id SERIAL], and the log of
    statements and remote calls issued so far. *)
Record world : Type := mkWorld {
  rows : list row;
  serial : Z;
  trace : list event
}.

Definition M (A : Type) : Type := world -> res A * world.

Definition ret {A} (a : A) : M A := fun w => (Ok a, w).

Definition raise {A} (e : exn) : M A := fun w => (Raise e, w).

Definition bind {A B} (m : M A) (k : A -> M B) : M B :=
  fun w =>
    match m w with
    | (Ok a, w') => k a w'
    | (Raise e, w') => (Raise e, w')
    end.

Notation "x <- m ;; k" := (bind m (fun x => k))
  (at level 100, m at next level, right associativity).

(** [try: m  except Exception as e: h e] *)
Definition try_except {A} (m : M A) (h : exn -> M A) : M A :=
  fun w =>
    match m w with
    | (Ok a, w') => (Ok a, w')
    | (Raise e, w') => h e w'
    end.

Definition emit (ev : event) : M unit :=
  fun w => (Ok tt, mkWorld (rows w) (serial w) (trace w ++ [ev])%list).

Definition lift {A} (r : res A) : M A := fun w => (r, w).

(* ================================================================== *)
(** ** Database operations *)
(* ================================================================== *)

(** The exception that leaves [get_db_connection] when [e] reaches it:
    the clause [except psycopg2.Error] first, then [except Exception]. *)
Definition on_db_exception (e : exn) : exn :=
  if is_psycopg2_Error e then
    HTTPException HTTP_500_INTERNAL_SERVER_ERROR "Database operation failed"
  else
    HTTPException HTTP_500_INTERNAL_SERVER_ERROR "An unexpected error occurred".

(** [conn.rollback()]: the table is as it was when the transaction
    began; values drawn from the sequence are not given back. *)
Definition rollback (w0 w1 : world) : world :=
  mkWorld (rows w0) (serial w1) (trace w1).

(** [with get_db_connection() as conn: body].  [connect] is the outcome
    of [psycopg2.connect]: [Some e] when the database cannot be reached
    (raised before [conn] is bound, so nothing is rolled back).
    A body that returns is committed; a body that raises is rolled back
    and its exception replaced.  A session that was opened is taken to
    last until it is closed: [conn.commit()], [conn.rollback()] and
    [conn.close()] return.  (A connection lost in between would make
    them raise in turn; that case is outside the model.) *)
Definition get_db_connection {A} (connect : option exn) (body : M A) : M A :=
  fun w =>
    match connect with
    | Some e => (Raise (on_db_exception e), w)
    | None =>
        match body w with
        | (Ok a, w') => (Ok a, w')
        | (Raise e, w') => (Raise (on_db_exception e), rollback w w')
        end
    end.

Definition email_taken (e : string) (t : list row) : bool :=
  existsb (fun r => String.eqb (email r) e) t.

(** The row an [INSERT] creates, unless the unique index on [email]
    rejects it.  The table is taken to exist with the constraint
    [email VARCHAR(255) UNIQUE NOT NULL] of the schema; the service
    relies on the database for it and has no check of its own besides
    [check_email_exists]. *)
Definition row_of_values (next : Z) (v : insert_values) : row :=
  mkRow next (v_email v) (v_name v) (v_referral_source v)
    (v_status v) (v_brevo_contact_id v) (v_brevo_sync_status v)
    (v_brevo_synced_at v) (v_created_at v).

Definition storage_insert (v : insert_values) (t : list row) (next : Z)
  : option row :=
  if email_taken (v_email v) t then None
  else Some (row_of_values next v).

(** The columns of [RETURNING id, email, name, status, created_at], also
    those of the [SELECT] in [check_email_exists]. *)
Record RealDictRow : Type := mkDictRow {
  d_id : Z;
  d_email : string;
  d_name : option string;
  d_status : WaitlistStatus;
  d_created_at : time
}.

Definition dict_of_row (r : row) : RealDictRow :=
  mkDictRow (row_id r) (email r) (name r) (status r) (created_at r).

(** The character U+0000. *)
Definition NUL : ascii := ascii_of_nat 0.

Definition has_NUL (o : option string) : bool :=
  match o with Some s => PyStr.mem_char NUL s | None => false end.

(** [cur.execute(INSERT ... RETURNING ...); cur.fetchone()].
    The driver refuses a string parameter that holds the character NUL:
    it raises [ValueError] while it builds the statement, before
    anything is sent to the server.  Of the parameters of this statement
    only [name] and [referral_source] can hold one: the email passed the
    syntax check of [EmailStr], the contact id is the decimal text of an
    integer, the others are enumeration values and timestamps.
    A statement that reaches the server draws from the sequence, and
    then either creates the row or meets the unique index. *)
Definition execute_insert (v : insert_values) : M RealDictRow :=
  fun w =>
    if has_NUL (v_name v) || has_NUL (v_referral_source v) then
      (Raise (ValueError
                "A string literal cannot contain NUL (0x00) characters."), w)
    else
      match storage_insert v (rows w) (serial w) with
      | Some r =>
          (Ok (dict_of_row r),
           mkWorld (rows w ++ [r])%list (serial w + 1) (trace w))
      | None =>
          (Raise (Psycopg2Error IntegrityError
                    "duplicate key value violates unique constraint"),
           mkWorld (rows w) (serial w + 1) (trace w))
      end.

(** [SELECT id, email, name, status, created_at FROM waitlist
     WHERE email = %s], then [fetchone]. *)
Definition execute_select_by_email (e : string) : M (option RealDictRow) :=
  fun w =>
    (Ok (option_map dict_of_row
           (find (fun r => String.eqb (email r) e) (rows w))), w).

(** [SELECT COUNT( * ) FROM waitlist] *)
Definition execute_count : M Z :=
  fun w => (Ok (Z.of_nat (List.length (rows w))), w).

(** [SELECT COUNT( * ) FROM waitlist WHERE created_at <= %s] *)
Definition count_up_to (t : time) (tbl : list row) : Z :=
  Z.of_nat (List.length (filter (fun r => created_at r <=? t) tbl)).

Definition execute_count_up_to (t : time) : M Z :=
  fun w => (Ok (count_up_to t (rows w)), w).

(** Inserts committed by other requests while this one is between two
    of its own statements: each goes through the unique index and draws
    from the sequence like this process's own. *)
Definition race_step (tn : list row * Z) (v : insert_values) : list row * Z :=
  match storage_insert v (fst tn) (snd tn) with
  | Some r => ((fst tn ++ [r])%list, snd tn + 1)
  | None => (fst tn, snd tn + 1)
  end.

Definition raced (vs : list insert_values) (t : list row) (next : Z)
  : list row * Z :=
  fold_left race_step vs (t, next).

Definition interleave (vs : list insert_values) : M unit :=
  fun w =>
    let tn := raced vs (rows w) (serial w) in
    (Ok tt, mkWorld (fst tn) (snd tn) (trace w)).

Module DatabaseService.

(** [check_email_exists(email)] *)
Definition check_email_exists (connect : option exn) (e : string)
  : M (option RealDictRow) :=
  try_except
    (get_db_connection connect
       (_ <- emit (SqlSelectByEmail e);;
        result <- execute_select_by_email e;;
        match result with
        | Some d => ret (Some d)
        | None => ret None
        end))
    (fun exc => raise exc).

(** The dictionary [add_waitlist_entry] returns: the [RETURNING] row
    and the key [position]. *)
Record entry_data : Type := mkEntry {
  entry : RealDictRow;
  position : Z
}.

(** The parameters of the [INSERT] in [add_waitlist_entry]. *)
Definition signup_values (now1 now2 : time) (e : string)
    (nm ref : option string) (contact_id : option string)
    (sync_status : BrevoSyncStatus) : insert_values :=
  mkValues e nm ref PENDING contact_id sync_status
    (if BrevoSyncStatus_eqb sync_status SUCCESS then Some now1 else None)
    now2.

(** [add_waitlist_entry(email, name, referral_source, brevo_contact_id,
    brevo_sync_status)]; [now1] and [now2] are the two readings of
    [datetime.now()] in the statement's parameters. *)
Definition add_waitlist_entry (connect : option exn) (now1 now2 : time)
    (e : string) (nm ref : option string)
    (contact_id : option string) (sync_status : BrevoSyncStatus)
  : M entry_data :=
  try_except
    (get_db_connection connect
       (let v := signup_values now1 now2 e nm ref contact_id sync_status in
        _ <- emit (SqlInsert v);;
        result <- execute_insert v;;
        _ <- emit (SqlCountUpTo (d_created_at result));;
        position_result <- execute_count_up_to (d_created_at result);;
        ret (mkEntry result position_result)))
    (fun exc =>
       if is_IntegrityError exc then
         raise (HTTPException HTTP_409_CONFLICT "Email already registered")
       else raise exc).

(** [get_waitlist_count()] *)
Definition get_waitlist_count (connect : option exn) : M Z :=
  try_except
    (get_db_connection connect
       (_ <- emit SqlCount;;
        count <- execute_count;;
        ret count))
    (fun exc => raise exc).

End DatabaseService.

(* ================================================================== *)
(** ** Configuration *)
(* ================================================================== *)

(** [class Config]: the values read from the process environment when
    the module is loaded. *)
Record Config : Type := mkConfig {
  DATABASE_URL : option string;
  BREVO_API_KEY : string;
  BREVO_WAITLIST_ID : Z;
  ALLOWED_ORIGINS : list string
}.

(** [os.environ] *)
Definition environ : Type := string -> option string.

(** [os.getenv(key, default)] *)
Definition getenv (env : environ) (key default : string) : string :=
  match env key with Some v => v | None => default end.

Definition dquote : string := String (ascii_of_nat 34) EmptyString.
Definition squote : string := String (ascii_of_nat 39) EmptyString.

(** The body of [class Config]; [int(...)] raises [ValueError] on a
    value that is not an integer literal, which fails the import. *)
Definition load_Config (env : environ) : res Config :=
  let database_url := env "DATABASE_URL" in
  let brevo_api_key :=
    PyStr.strip_chars squote
      (PyStr.strip_chars dquote
         (PyStr.strip (getenv env "BREVO_API_KEY" EmptyString))) in
  match PyStr.to_Z (getenv env "BREVO_WAITLIST_ID" "0") with
  | None => Raise (ValueError "invalid literal for int() with base 10")
  | Some brevo_waitlist_id =>
      Ok (mkConfig database_url brevo_api_key brevo_waitlist_id
            ["http://localhost:5173";
             "http://localhost:3000";
             "http://127.0.0.1:5173";
             getenv env "FRONTEND_URL" EmptyString])
  end.

Record validation : Type := mkValidation {
  valid : bool;
  errors : list string;
  warnings : list string
}.

Definition opt_truthy (o : option string) : bool :=
  match o with Some s => PyStr.truthy s | None => false end.

(** [Config.validate()]: the report, and the configuration with the
    empty origins filtered out. *)
Definition validate (cfg : Config) : validation * Config :=
  let errors0 :=
    if negb (opt_truthy (DATABASE_URL cfg))
    then ["DATABASE_URL is not set"] else [] in
  let errors1 :=
    if negb (PyStr.truthy (BREVO_API_KEY cfg))
    then (errors0 ++ ["BREVO_API_KEY is not set"])%list else errors0 in
  let errors2 :=
    if BREVO_WAITLIST_ID cfg =? 0
    then (errors1 ++ ["BREVO_WAITLIST_ID is not set or invalid"])%list
    else errors1 in
  let origins := filter PyStr.truthy (ALLOWED_ORIGINS cfg) in
  let warnings0 :=
    match origins with
    | [] => ["No CORS origins configured"]
    | _ => []
    end in
  (mkValidation (Nat.eqb (List.length errors2) 0) errors2 warnings0,
   mkConfig (DATABASE_URL cfg) (BREVO_API_KEY cfg) (BREVO_WAITLIST_ID cfg)
     origins).

(* ================================================================== *)
(** ** The Brevo adapter *)
(* ================================================================== *)

Module BrevoService.

(** The dictionary [add_contact_to_list] returns; an absent key is
    [None], as [dict.get] reads it. *)
Record sync_result : Type := mkSync {
  sync_status : BrevoSyncStatus;
  contact_id : option string;
  message : option string;
  error : option string;
  error_code : option string
}.

(** The attributes of the contact; [name_parts[0]] raises [IndexError]
    when a non-empty name holds whitespace only. *)
Definition contact_attributes (now : time) (nm ref : option string)
    (position : Z) : res (list (string * attr)) :=
  let attributes :=
    [("SIGNUP_DATE", AttrDate now); ("WAITLIST_POSITION", AttrInt position)] in
  let with_ref (a : list (string * attr)) :=
    if opt_truthy ref
    then (a ++ [("REFERRAL_SOURCE", AttrStr (str_opt ref))])%list else a in
  if opt_truthy nm then
    match PyStr.split_max1 (str_opt nm) with
    | [] => Raise (IndexError "list index out of range")
    | [first] => Ok (with_ref (attributes ++ [("FIRSTNAME", AttrStr first)])%list)
    | first :: last :: _ =>
        Ok (with_ref (attributes ++ [("FIRSTNAME", AttrStr first);
                                     ("LASTNAME", AttrStr last)])%list)
    end
  else Ok (with_ref attributes).

(** [add_contact_to_list(email, name, referral_source, position)];
    [reply] is what [contacts_api.create_contact] does: it returns the
    new contact's id or raises. *)
Definition add_contact_to_list (cfg : Config) (reply : res Z) (now : time)
    (e : string) (nm ref : option string) (position : Z)
  : M sync_result :=
  try_except
    (attributes <- lift (contact_attributes now nm ref position);;
     let create_contact :=
       mkCreateContact e attributes [BREVO_WAITLIST_ID cfg] true in
     _ <- emit (BrevoCreateContact create_contact);;
     response_id <- lift reply;;
     ret (mkSync SUCCESS (Some (PyStr.of_Z response_id))
            (Some "Contact added and automation triggered") None None))
    (fun exc =>
       match exc with
       | ApiException st reason body _ =>
           if (st =? 400) &&
              PyStr.contains "Contact already exist" (str_opt body) then
             ret (mkSync SUCCESS None
                    (Some "Contact already exists in Brevo") None None)
           else if st =? 401 then
             ret (mkSync FAILED None None
                    (Some "Authentication failed")
                    (Some "BREVO_AUTH_FAILED"))
           else if st =? 404 then
             ret (mkSync FAILED None None
                    (Some "List not found")
                    (Some "BREVO_LIST_NOT_FOUND"))
           else
             ret (mkSync FAILED None None
                    (Some ("API error: " ++ reason))
                    (Some "BREVO_API_ERROR"))
       | _ =>
           ret (mkSync FAILED None None
                  (Some (str_exn exc))
                  (Some "BREVO_UNEXPECTED_ERROR"))
       end).

(** What [account_api.get_account()] returns. *)
Record account : Type := mkAccount {
  account_email : string;
  company_name : option string;
  plan : list string
}.

(** The dictionary [test_connection] returns. *)
Inductive connection : Type :=
| Connected (account_email : string) (company_name plan_type : option string)
| NotConnected (error : string).

Definition connected (c : connection) : bool :=
  match c with Connected _ _ _ => true | NotConnected _ => false end.

(** [test_connection()] *)
Definition test_connection (reply : res account) : M connection :=
  try_except
    (_ <- emit BrevoGetAccount;;
     acct <- lift reply;;
     ret (Connected (account_email acct) (company_name acct)
            (match plan acct with [] => None | p :: _ => Some p end)))
    (fun exc =>
       if is_ApiException exc then ret (NotConnected (str_exn exc))
       else ret (NotConnected (str_exn exc))).

End BrevoService.

(* ================================================================== *)
(** ** Request and response models *)
(* ================================================================== *)

#[local] Set Warnings "-register-all".

(** JSON values as the framework serialises them; [JIso t] stands for
    the string [t.isoformat()]. *)
Inductive json : Type :=
| JNull
| JBool (b : bool)
| JInt (n : Z)
| JStr (s : string)
| JIso (t : time)
| JObj (fields : list (string * json)).

Fixpoint assoc {A} (k : string) (fields : list (string * A)) : option A :=
  match fields with
  | [] => None
  | (k', v) :: rest => if String.eqb k k' then Some v else assoc k rest
  end.

(** Member [k] of a JSON object. *)
Definition json_get (k : string) (j : json) : option json :=
  match j with JObj fields => assoc k fields | _ => None end.

Definition json_opt_str (o : option string) : json :=
  match o with Some s => JStr s | None => JNull end.

(** [EmailSubmission.email_must_be_lowercase] *)
Definition email_must_be_lowercase (v : string) : string :=
  PyStr.strip (PyStr.lower v).

(** [EmailSubmission.name_must_be_clean] *)
Definition name_must_be_clean (v : option string) : option string :=
  match v with
  | Some s => if PyStr.truthy s then Some (PyStr.strip s) else v
  | None => v
  end.

(** A validated [EmailSubmission]: [sub_email] is an address that
    passed the syntax check of [EmailStr] and then the validator above;
    the name is at most 255 and the referral source at most 100
    characters long. *)
Record EmailSubmission : Type := mkSubmission {
  sub_email : string;
  sub_name : option string;
  sub_referral_source : option string
}.

(** Construction of the model from the request body: the field
    validators run once, here.  (The syntax check of [EmailStr] and the
    length limits reject a request before this point, with the
    framework's answer 422, whose body is not one of this module; they
    are not modelled.) *)
Definition parse_submission (raw_email : string)
    (raw_name raw_referral : option string) : EmailSubmission :=
  mkSubmission (email_must_be_lowercase raw_email)
    (name_must_be_clean raw_name) raw_referral.

(** [WaitlistResponse] *)
Record WaitlistResponse : Type := mkResponse {
  success : bool;
  message : string;
  data : option (list (string * json));
  resp_error_code : option string
}.

Definition WaitlistResponse_json (r : WaitlistResponse) : json :=
  JObj [("success", JBool (success r));
        ("message", JStr (message r));
        ("data", match data r with Some d => JObj d | None => JNull end);
        ("error_code", json_opt_str (resp_error_code r))].

(** What the client receives: the HTTP status and the JSON body. *)
Record http_response : Type := mkHttp {
  http_status : Z;
  http_body : json
}.

(** [http_exception_handler] *)
Definition http_exception_handler (status_code : Z) (detail : string)
  : http_response :=
  mkHttp status_code
    (JObj [("success", JBool false);
           ("error", JStr detail);
           ("status_code", JInt status_code)]).

(** [general_exception_handler] *)
Definition general_exception_handler (exc : exn) : http_response :=
  mkHttp HTTP_500_INTERNAL_SERVER_ERROR
    (JObj [("success", JBool false);
           ("error", JStr "Internal Server Error");
           ("status_code", JInt 500)]).

(** The application around a route: a returned value is serialised with
    the route's status code, a raised exception goes to its handler. *)
Definition serve {A} (ok_status : Z) (to_json : A -> json) (handler : M A)
  : world -> http_response * world :=
  fun w =>
    match handler w with
    | (Ok a, w') => (mkHttp ok_status (to_json a), w')
    | (Raise (HTTPException c d), w') => (http_exception_handler c d, w')
    | (Raise e, w') => (general_exception_handler e, w')
    end.

(* ================================================================== *)
(** ** Endpoints *)
(* ================================================================== *)

(** What one signup request meets outside the process.  The three
    [_connect] fields are the outcomes of [psycopg2.connect] for the
    three database operations ([None]: connected); [racing] are the
    inserts other requests commit after this request's existence check;
    [create_contact_reply] is Brevo's answer; the [now_] fields are the
    readings of [datetime.now()]. *)
Record request_env : Type := mkEnv {
  check_connect : option exn;
  count_connect : option exn;
  insert_connect : option exn;
  racing : list insert_values;
  create_contact_reply : res Z;
  now_signup : time;
  now_synced : time;
  now_created : time
}.

Definition warning_text : string := " (Note: Email confirmation may be delayed)".

Definition added_text : string := "🎉 You've been added to the waitlist!".

(** [POST /api/waitlist]: [add_to_waitlist(submission)] *)
Definition add_to_waitlist (cfg : Config) (env : request_env)
    (submission : EmailSubmission) : M WaitlistResponse :=
  try_except
    (existing <- DatabaseService.check_email_exists
                   (check_connect env) (sub_email submission);;
     match existing with
     | Some found =>
         ret (mkResponse false "This email has already been registered!"
                (Some [("email", JStr (sub_email submission));
                       ("registered_at", JIso (d_created_at found))])
                (Some "EMAIL_ALREADY_EXISTS"))
     | None =>
         _ <- interleave (racing env);;
         count <- DatabaseService.get_waitlist_count (count_connect env);;
         brevo_result <- BrevoService.add_contact_to_list cfg
                           (create_contact_reply env) (now_signup env)
                           (sub_email submission) (sub_name submission)
                           (sub_referral_source submission) (count + 1);;
         new_entry <- DatabaseService.add_waitlist_entry
                        (insert_connect env) (now_synced env) (now_created env)
                        (sub_email submission) (sub_name submission)
                        (sub_referral_source submission)
                        (BrevoService.contact_id brevo_result)
                        (BrevoService.sync_status brevo_result);;
         let entry := DatabaseService.entry new_entry in
         let response_data :=
           [("email", JStr (d_email entry));
            ("name", json_opt_str (d_name entry));
            ("position", JInt (DatabaseService.position new_entry));
            ("registered_at", JIso (d_created_at entry));
            ("brevo_sync_status",
             JStr (BrevoSyncStatus_value
                     (BrevoService.sync_status brevo_result)))] in
         let warning_message :=
           if BrevoSyncStatus_eqb (BrevoService.sync_status brevo_result) FAILED
           then warning_text else EmptyString in
         ret (mkResponse true
                (added_text ++ warning_message)
                (Some response_data) None)
     end)
    (fun exc =>
       if is_HTTPException exc then raise exc
       else raise (HTTPException HTTP_500_INTERNAL_SERVER_ERROR
                     "An unexpected error occurred. Please try again later.")).

(** The route [POST /api/waitlist] as the client sees it. *)
Definition post_waitlist (cfg : Config) (env : request_env)
    (submission : EmailSubmission) : world -> http_response * world :=
  serve HTTP_201_CREATED WaitlistResponse_json
    (add_to_waitlist cfg env submission).

(** [get_waitlist_count()], declared for [GET /api/waitlist/count]. *)
Definition get_waitlist_count (connect : option exn) (now : time) : M json :=
  try_except
    (count <- DatabaseService.get_waitlist_count connect;;
     ret (JObj [("success", JBool true);
                ("count", JInt count);
                ("timestamp", JIso now)]))
    (fun exc =>
       raise (HTTPException HTTP_500_INTERNAL_SERVER_ERROR
                "Failed to get waitlist count")).

(** [get_waitlist_count] with the framework around it: what a request
    handed to the function is answered.  (The route table below hands it
    none: its path is taken by the route registered before it.) *)
Definition get_count_route (connect : option exn) (now : time)
  : world -> http_response * world :=
  serve 200 (fun j => j) (get_waitlist_count connect now).

Definition connection_json (c : BrevoService.connection) : json :=
  match c with
  | BrevoService.Connected acct company plan_type =>
      JObj [("connected", JBool true);
            ("account_email", JStr acct);
            ("company_name", json_opt_str company);
            ("plan_type", json_opt_str plan_type)]
  | BrevoService.NotConnected err =>
      JObj [("connected", JBool false); ("error", JStr err)]
  end.

(** What a health probe meets outside the process. *)
Record probe_env : Type := mkProbe {
  probe_connect : option exn;
  account_reply : res BrevoService.account;
  probe_now : time
}.

(** [health_check()], declared for [GET /api/health]. *)
Definition health_check (env : probe_env) : M json :=
  fun w =>
    let status0 := "healthy" in
    let '(database, status1, w1) :=
      match DatabaseService.get_waitlist_count (probe_connect env) w with
      | (Ok count, w') =>
          (JObj [("status", JStr "healthy"); ("waitlist_count", JInt count)],
           status0, w')
      | (Raise e, w') =>
          (JObj [("status", JStr "unhealthy"); ("error", JStr (str_exn e))],
           "degraded", w')
      end in
    bind (BrevoService.test_connection (account_reply env))
      (fun brevo_status =>
         let status2 :=
           if negb (BrevoService.connected brevo_status)
           then "degraded" else status1 in
         ret (JObj [("status", JStr status2);
                    ("timestamp", JIso (probe_now env));
                    ("services",
                     JObj [("database", database);
                           ("brevo", connection_json brevo_status)])]))
      w1.

(** [brevo_connection_status()], declared for [GET /api/brevo/status]. *)
Definition brevo_connection_status (cfg : Config) (env : probe_env) : M json :=
  brevo <- BrevoService.test_connection (account_reply env);;
  ret (JObj [("timestamp", JIso (probe_now env));
             ("brevo", connection_json brevo);
             ("list_id", JInt (BREVO_WAITLIST_ID cfg))]).

(* ================================================================== *)
(** ** Startup *)
(* ================================================================== *)

(** [DatabaseService.initialize_schema()]: [True] when the statements
    ran, [False] on any exception.  [connect] stands for the first
    exception raised in the connection scope, by [psycopg2.connect] or
    by one of the schema statements; the scope treats both alike. *)
Definition initialize_schema (connect : option exn) : M bool :=
  try_except
    (get_db_connection connect (ret true))
    (fun exc => ret false).

(** What [startup_event] reports in its log. *)
Record startup_report : Type := mkReport {
  db_initialized : bool;
  brevo_connected : bool
}.

(** [startup_event()] *)
Definition startup_event (cfg : Config) (env : probe_env) : M startup_report :=
  let config_status := fst (validate cfg) in
  if negb (valid config_status) then
    raise (RuntimeError "Configuration validation failed")
  else
    db <- initialize_schema (probe_connect env);;
    brevo_status <- BrevoService.test_connection (account_reply env);;
    ret (mkReport db (BrevoService.connected brevo_status)).

(** Loading the module, then the startup event. *)
Definition boot (os_environ : environ) (env : probe_env) : M startup_report :=
  cfg <- lift (load_Config os_environ);;
  startup_event cfg env.

(** A run of signup requests one after the other. *)
Fixpoint run_requests (cfg : Config)
    (reqs : list (request_env * EmailSubmission)) (w : world)
  : list http_response * world :=
  match reqs with
  | [] => ([], w)
  | (env, submission) :: rest =>
      let (r, w1) := post_waitlist cfg env submission w in
      let (rs, w2) := run_requests cfg rest w1 in
      (r :: rs, w2)
  end.

(* ================================================================== *)
(** ** The frontend route and the route table *)
(* ================================================================== *)

(** What [os.path.exists] and [os.path.isfile] answer. *)
Record filesystem : Type := mkFs {
  path_exists : string -> bool;
  path_isfile : string -> bool
}.

(** [os.path.join("out", p)]: a component that starts with a slash
    replaces what precedes it. *)
Definition join_out (p : string) : string :=
  if prefix "/" p then p else "out/" ++ p.

(** What [serve_frontend] returns: a file to send, or a dictionary. *)
Inductive frontend_reply : Type :=
| FileResponse (path : string)
| JsonReply (body : json).

(** [GET /{full_path:path}]: [serve_frontend(full_path)] *)
Definition serve_frontend (fs : filesystem) (full_path : string)
  : res frontend_reply :=
  if prefix "api" full_path then
    Raise (HTTPException 404 "API route not found")
  else
    let file_path := join_out full_path in
    if path_exists fs file_path && path_isfile fs file_path then
      Ok (FileResponse file_path)
    else if path_exists fs "out/index.html" then
      Ok (FileResponse "out/index.html")
    else
      Ok (JsonReply
            (JObj [("message", JStr "Frontend not built. Run 'npm run build'")])).

Inductive http_method : Type :=
| GET | HEAD | POST | PUT | PATCH | DELETE | OPTIONS.

Definition http_method_eqb (a b : http_method) : bool :=
  match a, b with
  | GET, GET | HEAD, HEAD | POST, POST | PUT, PUT | PATCH, PATCH
  | DELETE, DELETE | OPTIONS, OPTIONS => true
  | _, _ => false
  end.

(** The functions a request can be handed to. *)
Inductive endpoint : Type :=
| FrameworkPage (path : string)
| StaticAssets (path : string)
| ServeFrontend (full_path : string)
| HealthCheck
| AddToWaitlist
| GetWaitlistCount
| BrevoConnectionStatus.

(** The path of a route: a literal path, a mounted prefix, or the
    pattern [/{full_path:path}].  The router compiles each to a regular
    expression between [^] and [$], a parameter of kind [path] being
    [.*]: the dot matches every character but the line feed, and [$]
    matches at the end of the text and before a line feed that ends
    it. *)
Inductive path_pattern : Type :=
| Literal (p : string)
| Mounted (p : string)
| AnyPath.

(** A registered route: its pattern, the methods it accepts ([None]:
    all), and its endpoint given the matched parameter. *)
Record route : Type := mkRoute {
  route_pattern : path_pattern;
  route_methods : option (list http_method);
  route_endpoint : string -> endpoint
}.

Fixpoint drop_prefix (p s : string) : option string :=
  match p, s with
  | EmptyString, _ => Some s
  | String a p', String b s' =>
      if Ascii.eqb a b then drop_prefix p' s' else None
  | String _ _, EmptyString => None
  end.

Definition LF : ascii := ascii_of_nat 10.

(** The text without the line feed that ends it, if one does. *)
Fixpoint chomp (s : string) : string :=
  match s with
  | EmptyString => EmptyString
  | String c EmptyString => if Ascii.eqb c LF then EmptyString else s
  | String c s' => String c (chomp s')
  end.

(** A parameter of kind [path] followed by [$], against the rest of a
    path: the rest up to a final line feed, provided no other line feed
    occurs. *)
Definition match_rest (s : string) : option string :=
  if PyStr.mem_char LF (chomp s) then None else Some (chomp s).

(** The parameter a path gives to a pattern, if it matches. *)
Definition match_path (pat : path_pattern) (path : string) : option string :=
  match pat with
  | Literal p =>
      if String.eqb path p || String.eqb path (p ++ nl)
      then Some EmptyString else None
  | Mounted p =>
      match drop_prefix (p ++ "/") path with
      | Some rest => match_rest rest
      | None => None
      end
  | AnyPath =>
      match drop_prefix "/" path with
      | Some rest => match_rest rest
      | None => None
      end
  end.

Inductive route_match : Type :=
| FULL (e : endpoint)
| PARTIAL
| NONE.

(** [Route.matches]: the path decides between a match and none, the
    method between a full and a partial match. *)
Definition route_matches (r : route) (method : http_method) (path : string)
  : route_match :=
  match match_path (route_pattern r) path with
  | None => NONE
  | Some param =>
      match route_methods r with
      | None => FULL (route_endpoint r param)
      | Some ms =>
          if existsb (http_method_eqb method) ms
          then FULL (route_endpoint r param) else PARTIAL
      end
  end.

Inductive dispatched : Type :=
| Handled (e : endpoint)
| MethodNotAllowed
| NotFound.

(** The router: routes are tried in the order of their registration;
    the first full match handles the request; failing that, a partial
    match answers that the method is not allowed. *)
Fixpoint dispatch_from (partial : bool) (routes : list route)
    (method : http_method) (path : string) : dispatched :=
  match routes with
  | [] => if partial then MethodNotAllowed else NotFound
  | r :: rest =>
      match route_matches r method path with
      | FULL e => Handled e
      | PARTIAL => dispatch_from true rest method path
      | NONE => dispatch_from partial rest method path
      end
  end.

Definition dispatch (routes : list route) (method : http_method)
    (path : string) : dispatched :=
  dispatch_from false routes method path.

(** The routes of [app] in the order the module registers them: the
    pages the framework adds when the application object is created
    (schema, docs, redoc), the mount of [/assets] when [out/assets]
    exists, then the decorated functions from top to bottom. *)
Definition app_routes (assets_exist : bool) : list route :=
  [mkRoute (Literal "/openapi.json") (Some [GET; HEAD]) (fun _ => FrameworkPage "/openapi.json");
   mkRoute (Literal "/api/docs") (Some [GET; HEAD]) (fun _ => FrameworkPage "/api/docs");
   mkRoute (Literal "/docs/oauth2-redirect") (Some [GET; HEAD])
     (fun _ => FrameworkPage "/docs/oauth2-redirect");
   mkRoute (Literal "/api/redoc") (Some [GET; HEAD]) (fun _ => FrameworkPage "/api/redoc")]
  ++ (if assets_exist then [mkRoute (Mounted "/assets") None StaticAssets] else [])
  ++ [mkRoute AnyPath (Some [GET]) ServeFrontend;
      mkRoute (Literal "/api/health") (Some [GET]) (fun _ => HealthCheck);
      mkRoute (Literal "/api/waitlist") (Some [POST]) (fun _ => AddToWaitlist);
      mkRoute (Literal "/api/waitlist/count") (Some [GET]) (fun _ => GetWaitlistCount);
      mkRoute (Literal "/api/brevo/status") (Some [GET])
        (fun _ => BrevoConnectionStatus)].

(** The client-visible answer of [serve_frontend]: a file, a JSON body,
    or the payload of the handler for HTTP exceptions. *)
Inductive frontend_answer : Type :=
| SendFile (path : string)
| SendJson (response : http_response).

Definition frontend_route (fs : filesystem) (full_path : string)
  : frontend_answer :=
  match serve_frontend fs full_path with
  | Ok (FileResponse p) => SendFile p
  | Ok (JsonReply j) => SendJson (mkHttp 200 j)
  | Raise (HTTPException c d) => SendJson (http_exception_handler c d)
  | Raise e => SendJson (general_exception_handler e)
  end.

(* ================================================================== *)
(** ** The two diagnostic scripts *)
(* ================================================================== *)

Module DebugBrevoKey.

(** [clean_key]: the key stripped of surrounding whitespace, then of
    single quotes, then of double quotes. *)
Definition clean_key (api_key : string) : string :=
  PyStr.strip_chars dquote (PyStr.strip_chars squote (PyStr.strip api_key)).

Definition first_char_is (c : ascii) (s : string) : bool :=
  match s with String a _ => Ascii.eqb a c | EmptyString => false end.

Fixpoint last_char_is (c : ascii) (s : string) : bool :=
  match s with
  | EmptyString => false
  | String a EmptyString => Ascii.eqb a c
  | String _ s' => last_char_is c s'
  end.

(** What the script prints about the key. *)
Inductive verdict : Type :=
| NotSet
| Valid
| Unauthorized
| Failed (status_code : Z)
| RequestError (text : string).

Record key_report : Type := mkKeyReport {
  whitespace_warning : bool;
  quotes_warning : bool;
  result : verdict
}.

(** The script.  [get_account key] is what the request to the account
    endpoint with that [api-key] header gives: the status code of the
    response, or an exception. *)
Definition script (api_key : option string) (get_account : string -> res Z)
  : key_report :=
  if negb (opt_truthy api_key) then mkKeyReport false false NotSet
  else
    let key := str_opt api_key in
    let ws := negb (String.eqb (PyStr.strip key) key) in
    let dq := ascii_of_nat 34 in
    let sq := ascii_of_nat 39 in
    let quoted :=
      (first_char_is dq key && last_char_is dq key) ||
      (first_char_is sq key && last_char_is sq key) in
    mkKeyReport ws quoted
      match get_account (clean_key key) with
      | Ok status_code =>
          if status_code =? 200 then Valid
          else if status_code =? 401 then Unauthorized
          else Failed status_code
      | Raise e => RequestError (str_exn e)
      end.

End DebugBrevoKey.

Module DebugBrevoContact.

(** [test_add_contact(email, attributes)]: [True] when the contact was
    created, [False] on an [ApiException]; any other exception is not
    caught. *)
Definition test_add_contact (list_id : Z) (create_contact : CreateContact -> res Z)
    (e : string) (attributes : list (string * attr)) : M bool :=
  let request := mkCreateContact e attributes [list_id] true in
  _ <- emit (BrevoCreateContact request);;
  try_except
    (_ <- lift (create_contact request);; ret true)
    (fun exc => if is_ApiException exc then ret false else raise exc).

(** The attributes of the second test. *)
Definition full_attributes (today : time) : list (string * attr) :=
  [("SIGNUP_DATE", AttrDate today);
   ("WAITLIST_POSITION", AttrInt 1);
   ("FIRSTNAME", AttrStr "Debug");
   ("LASTNAME", AttrStr "User");
   ("REFERRAL_SOURCE", AttrStr "debug_script")].

(** The loop of the third test. *)
Fixpoint test_each (list_id : Z) (create_contact : CreateContact -> res Z)
    (base : string) (attributes : list (string * attr)) : M unit :=
  match attributes with
  | [] => ret tt
  | (key, value) :: rest =>
      _ <- test_add_contact list_id create_contact
             (base ++ "_" ++ key ++ "@example.com") [(key, value)];;
      test_each list_id create_contact base rest
  end.

(** The script from its first test on; the value is the exit status.
    [seconds] is [int(time.time())]. *)
Definition script (list_id : Z) (create_contact : CreateContact -> res Z)
    (seconds : Z) (today : time) : M Z :=
  let test_email_base := "debug_test_" ++ PyStr.of_Z seconds in
  connected <- test_add_contact list_id create_contact
                 (test_email_base ++ "_min@example.com") [];;
  if connected then
    _ <- test_add_contact list_id create_contact
           (test_email_base ++ "_full@example.com") (full_attributes today);;
    _ <- test_each list_id create_contact test_email_base
           (full_attributes today);;
    ret 0
  else ret 1.

End DebugBrevoContact.

(* ================================================================== *)
(** ** Vocabulary of the statements *)
(* ================================================================== *)

Definition has_email (e : string) (r : row) : bool := String.eqb (email r) e.

(** Number of stored rows for an email. *)
Definition count_email (e : string) (t : list row) : nat :=
  List.length (filter (has_email e) t).

(** The table invariant kept by the unique index. *)
Definition unique_emails (t : list row) : Prop := NoDup (map email t).

(** The remote calls one invocation of the adapter issues. *)
Definition sync_events (cfg : Config) (now : time) (e : string)
    (nm ref : option string) (position : Z) : list event :=
  match BrevoService.contact_attributes now nm ref position with
  | Ok a => [BrevoCreateContact (mkCreateContact e a [BREVO_WAITLIST_ID cfg] true)]
  | Raise _ => []
  end.

Definition duplicate_response (e : string) (registered_at : time)
  : WaitlistResponse :=
  mkResponse false "This email has already been registered!"
    (Some [("email", JStr e); ("registered_at", JIso registered_at)])
    (Some "EMAIL_ALREADY_EXISTS").

Definition created_response (stored : row) (position : Z)
    (sync : BrevoSyncStatus) : WaitlistResponse :=
  mkResponse true
    (added_text ++
     (if BrevoSyncStatus_eqb sync FAILED then warning_text else EmptyString))
    (Some [("email", JStr (email stored));
           ("name", json_opt_str (name stored));
           ("position", JInt position);
           ("registered_at", JIso (created_at stored));
           ("brevo_sync_status", JStr (BrevoSyncStatus_value sync))])
    None.

(** Name and referral source can be passed to the database: neither
    holds the character NUL. *)
Definition storable (sub : EmailSubmission) : Prop :=
  has_NUL (sub_name sub) = false /\ has_NUL (sub_referral_source sub) = false.

(** The database answers all three operations of the request. *)
Definition db_reachable (env : request_env) : Prop :=
  check_connect env = None /\ count_connect env = None /\
  insert_connect env = None.

(** No other request commits between this request's statements. *)
Definition sequential (env : request_env) : Prop := racing env = [].

(** *** Sample inputs *)

Definition sample_cfg : Config :=
  mkConfig (Some "postgresql://db/waitlist") "xkeysib-0123" 7
    ["http://localhost:5173"].

(** An empty table whose sequence starts at one. *)
Definition empty_world : world := mkWorld [] 1 [].

(** A request that finds the database reachable and Brevo accepting. *)
Definition env_ok : request_env :=
  mkEnv None None None [] (Ok 42) 100 101 102.

(** A later request whose Brevo call is refused for a bad key. *)
Definition env_auth_failure : request_env :=
  mkEnv None None None []
    (Raise (ApiException 401 "Unauthorized" (Some "Key not found") None))
    200 201 202.

(** A request overtaken, after its existence check, by another request's
    insert of the same email. *)
Definition env_raced : request_env :=
  mkEnv None None None
    [mkValues "a@x.com" None None PENDING (Some "41") SUCCESS (Some 90) 91]
    (Ok 42) 100 101 102.

Definition sample_row : row :=
  mkRow 1 "a@x.com" None None PENDING (Some "42") SUCCESS (Some 11) 12.

(** A row whose [created_at] is later than every clock reading of the
    sample requests. *)
Definition late_row : row :=
  mkRow 2 "z@x.com" None None PENDING None FAILED None 900.

(** The request passes its existence check and then meets the unique
    index: another request committed the same email in between. *)
Definition insert_hits_unique_index (env : request_env) (sub : EmailSubmission)
    (w : world) : Prop :=
  email_taken (sub_email sub) (rows w) = false /\
  email_taken (sub_email sub)
    (fst (raced (racing env) (rows w) (serial w))) = true.

(** *** The adapter's classification *)

(** What the attempt to register the contact met. *)
Inductive sync_condition : Type :=
| Accepted (contact : Z)
| ContactAlreadyExists
| AuthenticationFailed
| ListNotFound
| OtherRemoteError
| UnexpectedFailure.

(** The condition an exception stands for: the remote API's errors are
    [ApiException]s told apart by HTTP status (and, for status 400, by
    the text of the response body); everything else is unexpected. *)
Definition condition_of_exn (exc : exn) : sync_condition :=
  match exc with
  | ApiException st _ body _ =>
      if (st =? 400) && PyStr.contains "Contact already exist" (str_opt body)
      then ContactAlreadyExists
      else if st =? 401 then AuthenticationFailed
      else if st =? 404 then ListNotFound
      else OtherRemoteError
  | _ => UnexpectedFailure
  end.

(** The condition one invocation meets: computing the attributes may
    raise before the remote call; otherwise the remote call decides. *)
Definition condition_met (now : time) (nm ref : option string) (position : Z)
    (reply : res Z) : sync_condition :=
  match BrevoService.contact_attributes now nm ref position with
  | Raise e => condition_of_exn e
  | Ok _ =>
      match reply with
      | Ok contact => Accepted contact
      | Raise e => condition_of_exn e
      end
  end.

(** The classification as the specification words it: three error
    codes, every other failure being unexpected. *)
Definition classification_as_stated (c : sync_condition)
  : BrevoSyncStatus * option string :=
  match c with
  | Accepted _ | ContactAlreadyExists => (SUCCESS, None)
  | AuthenticationFailed => (FAILED, Some "BREVO_AUTH_FAILED")
  | ListNotFound => (FAILED, Some "BREVO_LIST_NOT_FOUND")
  | OtherRemoteError | UnexpectedFailure =>
      (FAILED, Some "BREVO_UNEXPECTED_ERROR")
  end.

(** The classification with a code of its own for the remaining remote
    errors. *)
Definition classification (c : sync_condition)
  : BrevoSyncStatus * option string :=
  match c with
  | Accepted _ | ContactAlreadyExists => (SUCCESS, None)
  | AuthenticationFailed => (FAILED, Some "BREVO_AUTH_FAILED")
  | ListNotFound => (FAILED, Some "BREVO_LIST_NOT_FOUND")
  | OtherRemoteError => (FAILED, Some "BREVO_API_ERROR")
  | UnexpectedFailure => (FAILED, Some "BREVO_UNEXPECTED_ERROR")
  end.

(** The contact id the adapter can report. *)
Definition contact_id_of (c : sync_condition) : option string :=
  match c with
  | Accepted contact => Some (PyStr.of_Z contact)
  | _ => None
  end.

(** A request whose contact Brevo already holds. *)
Definition env_contact_exists : request_env :=
  mkEnv None None None []
    (Raise (ApiException 400 "Bad Request"
              (Some "{'code':'duplicate_parameter','message':'Contact already exist'}")
              None))
    300 301 302.

(** *** Positions *)

(** The member [data.position] of a response body. *)
Definition response_position (r : http_response) : option json :=
  match json_get "data" (http_body r) with
  | Some d => json_get "position" d
  | None => None
  end.

Definition request : Type := (request_env * EmailSubmission)%type.

Definition request_email (q : request) : string := sub_email (snd q).

Definition request_created_at (q : request) : time := now_created (fst q).

(** Requests handled one after the other on a reachable database. *)
Definition in_sequence (q : request) : Prop :=
  db_reachable (fst q) /\ sequential (fst q).

(** Three signups in a row with increasing clock readings. *)
Definition three_requests : list request :=
  [(mkEnv None None None [] (Ok 42) 100 101 102,
    parse_submission "a@x.com" None None);
   (mkEnv None None None []
      (Raise (ApiException 401 "Unauthorized" None None)) 200 201 202,
    parse_submission "b@x.com" (Some "Bo") None);
   (mkEnv None None None [] (Ok 44) 300 301 302,
    parse_submission "c@x.com" None (Some "twitter"))].

(** *** Email identity *)

(** [C] is the ASCII capital of the small letter [c]. *)
Definition is_capital_of (C c : ascii) : bool :=
  let n := nat_of_ascii C in
  ((65 <=? n) && (n <=? 90) && (nat_of_ascii c =? n + 32))%nat.

(** The small dotless i, U+0131, in UTF-8 (the bytes C4 B1).  Its
    capital is the ASCII letter I, to which [str.upper] maps it; being a
    small letter it is left as it is by [str.lower], which maps the
    capital I to the ASCII letter i. *)
Definition dotless_i : string :=
  String (ascii_of_nat 196) (String (ascii_of_nat 177) EmptyString).

(** Two strings that differ only in the case of letters: character by
    character the same, or a small letter on one side and its capital on
    the other.  The letters are those of ASCII and, of the many outside
    it, the dotless i. *)
Inductive case_variant : string -> string -> Prop :=
| cv_nil : case_variant EmptyString EmptyString
| cv_same c a b :
    case_variant a b -> case_variant (String c a) (String c b)
| cv_capital_left C c a b :
    is_capital_of C c = true -> case_variant a b ->
    case_variant (String C a) (String c b)
| cv_capital_right C c a b :
    is_capital_of C c = true -> case_variant a b ->
    case_variant (String c a) (String C b)
| cv_dotless_left a b :
    case_variant a b -> case_variant (dotless_i ++ a) (String "I" b)
| cv_dotless_right a b :
    case_variant a b -> case_variant (String "I" a) (dotless_i ++ b).

(** Whitespace only. *)
Fixpoint all_space (s : string) : bool :=
  match s with
  | EmptyString => true
  | String c s' => PyStr.is_space c && all_space s'
  end.

(** [s] is [core] with whitespace before and after it. *)
Definition padded (s core : string) : Prop :=
  exists l r, s = l ++ core ++ r /\ all_space l = true /\ all_space r = true.

(** Two submitted strings that differ only in letter case or in leading
    and trailing whitespace. *)
Definition same_address (a b : string) : Prop :=
  exists ca cb, padded a ca /\ padded b cb /\ case_variant ca cb.

(** *** Health reports *)

(** The value at a path of member names. *)
Definition json_path (path : list string) (j : json) : option json :=
  fold_left
    (fun found k => match found with Some x => json_get k x | None => None end)
    path (Some j).

Definition health_status (h : json) : option json := json_get "status" h.

Definition database_status (h : json) : option json :=
  json_path ["services"; "database"; "status"] h.

Definition sync_connected (h : json) : option json :=
  json_path ["services"; "brevo"; "connected"] h.

(** The database answers the probe. *)
Definition store_reachable (env : probe_env) : bool :=
  match probe_connect env with None => true | Some _ => false end.

(** A probe that finds the database down and Brevo answering. *)
Definition probe_db_down : probe_env :=
  mkProbe (Some (Psycopg2Error OperationalError "could not connect to server"))
    (Ok (BrevoService.mkAccount "ops@example.com" None ["free"])) 500.

(** *** Runs that differ only in exception text *)

(** Two exceptions of the same class that differ at most in their
    message: the driver's text of a database error, the reason phrase
    and the printed headers of a remote API error, the message of any
    other exception. *)
Inductive same_but_text : exn -> exn -> Prop :=
| sbt_psycopg2 cls t t' :
    same_but_text (Psycopg2Error cls t) (Psycopg2Error cls t')
| sbt_http c d :
    same_but_text (HTTPException c d) (HTTPException c d)
| sbt_api st r r' b h h' :
    same_but_text (ApiException st r b h) (ApiException st r' b h')
| sbt_runtime m m' : same_but_text (RuntimeError m) (RuntimeError m')
| sbt_index m m' : same_but_text (IndexError m) (IndexError m')
| sbt_value m m' : same_but_text (ValueError m) (ValueError m')
| sbt_other m m' : same_but_text (OtherException m) (OtherException m').

Inductive same_fault : option exn -> option exn -> Prop :=
| same_fault_none : same_fault None None
| same_fault_some e e' : same_but_text e e' -> same_fault (Some e) (Some e').

Inductive same_reply {A} : res A -> res A -> Prop :=
| same_reply_ok a : same_reply (Ok a) (Ok a)
| same_reply_raise e e' : same_but_text e e' -> same_reply (Raise e) (Raise e').

(** Two requests that meet the same surroundings up to exception
    text. *)
Definition same_run (env env' : request_env) : Prop :=
  same_fault (check_connect env) (check_connect env') /\
  same_fault (count_connect env) (count_connect env') /\
  same_fault (insert_connect env) (insert_connect env') /\
  racing env = racing env' /\
  same_reply (create_contact_reply env) (create_contact_reply env') /\
  now_signup env = now_signup env' /\
  now_synced env = now_synced env' /\
  now_created env = now_created env'.

(** A probe that finds Brevo refusing the key. *)
Definition probe_unauthorized : probe_env :=
  mkProbe None
    (Raise (ApiException 401 "Unauthorized" (Some "{'code':'unauthorized'}")
              (Some "HTTPHeaderDict({'Content-Type': 'application/json'})")))
    500.

(** Two requests that find the database down, with different driver
    texts. *)
Definition env_db_down : request_env :=
  mkEnv (Some (Psycopg2Error OperationalError "could not connect to server"))
    None None [] (Ok 42) 100 101 102.

Definition env_db_timeout : request_env :=
  mkEnv (Some (Psycopg2Error OperationalError "timeout expired"))
    None None [] (Ok 42) 100 101 102.

(** *** Startup *)

(** A process environment given by its variables. *)
Definition environ_of (vars : list (string * string)) : environ :=
  fun k => assoc k vars.

(** One of the three values that [Config.validate] reports as an error
    is absent from the environment. *)
Definition missing_required (os_environ : environ) : Prop :=
  os_environ "DATABASE_URL" = None \/
  os_environ "BREVO_API_KEY" = None \/
  os_environ "BREVO_WAITLIST_ID" = None.

(** Database, key and list are configured; no origin is. *)
Definition environ_without_origin : environ :=
  environ_of [("DATABASE_URL", "postgresql://db/waitlist");
              ("BREVO_API_KEY", "xkeysib-0123");
              ("BREVO_WAITLIST_ID", "7")].

(** The API key is absent. *)
Definition environ_without_key : environ :=
  environ_of [("DATABASE_URL", "postgresql://db/waitlist");
              ("BREVO_WAITLIST_ID", "7");
              ("FRONTEND_URL", "https://waitlist.example.com")].

(** A probe that finds database and Brevo answering. *)
Definition probe_ok : probe_env :=
  mkProbe None (Ok (BrevoService.mkAccount "ops@example.com" None ["free"])) 500.

(** *** Outcomes of a signup request *)

(** The answer to a request whose database operation failed with
    [exc]. *)
Definition database_error_response (exc : exn) : http_response :=
  http_exception_handler HTTP_500_INTERNAL_SERVER_ERROR
    (if is_psycopg2_Error exc then "Database operation failed"
     else "An unexpected error occurred").

(** The table as the racing inserts of a request leave it. *)
Definition table_after_race (env : request_env) (w : world) : list row :=
  fst (raced (racing env) (rows w) (serial w)).

(** The row a signup stores, given the adapter's dictionary. *)
Definition stored_row (env : request_env) (sub : EmailSubmission) (w : world)
    (r : BrevoService.sync_result) : row :=
  row_of_values (snd (raced (racing env) (rows w) (serial w)))
    (DatabaseService.signup_values (now_synced env) (now_created env)
       (sub_email sub) (sub_name sub) (sub_referral_source sub)
       (BrevoService.contact_id r) (BrevoService.sync_status r)).

Definition response_success (r : http_response) : option json :=
  json_get "success" (http_body r).

(** A request that loses the database before its insert. *)
Definition env_insert_down : request_env :=
  mkEnv None None (Some (Psycopg2Error OperationalError "server closed the connection"))
    [] (Ok 42) 100 101 102.

(** *** Counting and reading back *)

Definition is_success (r : http_response) : bool :=
  match response_success r with
  | Some (JBool true) => true
  | _ => false
  end.

(** Number of responses with [success=true]. *)
Definition count_successes (rs : list http_response) : Z :=
  Z.of_nat (List.length (filter is_success rs)).

(** The member [data.registered_at] of a response body. *)
Definition registered_at (r : http_response) : option json :=
  json_path ["data"; "registered_at"] (http_body r).

(** A mixed run: a signup, the same email again, a signup that loses
    the database before its insert, and one more signup. *)
Definition mixed_requests : list request :=
  [(env_ok, parse_submission "a@x.com" None None);
   (env_auth_failure, parse_submission " A@X.COM" None None);
   (env_insert_down, parse_submission "b@x.com" None None);
   (env_contact_exists, parse_submission "c@x.com" None None)].

(** *** The adapter's request *)

(** The position a contact is registered with at Brevo. *)
Definition contact_position (c : CreateContact) : option attr :=
  assoc "WAITLIST_POSITION" (cc_attributes c).

(** Brevo answered the account probe. *)
Definition sync_reachable (env : probe_env) : bool :=
  match account_reply env with Ok _ => true | Raise _ => false end.

(** The API key as the configuration cleans it. *)
Definition cleaned_key (v : string) : string :=
  PyStr.strip_chars squote (PyStr.strip_chars dquote (PyStr.strip v)).

(** A value of the environment that [int] reads as [PyStr.to_Z] does:
    ASCII text, short enough for [int] to convert it without a check of
    its length. *)
Definition plain_value (v : string) : bool :=
  PyStr.is_ascii v && (String.length v <=? 640)%nat.

(** A process environment whose list identifier is not an integer
    literal (it ends with an underscore). *)
Definition environ_bad_list : environ :=
  environ_of [("DATABASE_URL", "postgresql://db/waitlist");
              ("BREVO_API_KEY", "xkeysib-0123");
              ("BREVO_WAITLIST_ID", "1_0_")].

(** A probe that finds neither the database nor Brevo. *)
Definition probe_all_down : probe_env :=
  mkProbe (Some (Psycopg2Error OperationalError "could not connect to server"))
    (Raise (OtherException "Connection refused")) 500.

(** *** Quotes in the API key *)

Definition single_quote : ascii := ascii_of_nat 39.

Definition double_quote : ascii := ascii_of_nat 34.

(** A process environment whose API key is wrapped in double quotes and
    padded with blanks. *)
Definition environ_quoted_key : environ :=
  environ_of [("DATABASE_URL", "postgresql://db/waitlist");
              ("BREVO_API_KEY",
               " " ++ dquote ++ "xkeysib-0123" ++ dquote ++ " ");
              ("BREVO_WAITLIST_ID", "7")].

(** *** Files and routes *)

(** A file system without a built frontend. *)
Definition fs_empty : filesystem := mkFs (fun _ => false) (fun _ => false).

(** A file system with a built frontend and one file outside it. *)
Definition fs_built : filesystem :=
  mkFs (fun p => String.eqb p "out/index.html" || String.eqb p "/etc/hostname")
       (fun p => String.eqb p "out/index.html" || String.eqb p "/etc/hostname").

(** The endpoints declared after the catch-all route. *)
Definition declared_after_catch_all (e : endpoint) : bool :=
  match e with
  | HealthCheck | GetWaitlistCount | BrevoConnectionStatus => true
  | _ => false
  end.

(** A remote that refuses every contact. *)
Definition remote_refusing (c : CreateContact) : res Z :=
  Raise (ApiException 400 "Bad Request" (Some "Invalid list id") None).

(** A remote that accepts the bare contact and refuses attributes. *)
Definition remote_without_attributes (c : CreateContact) : res Z :=
  match cc_attributes c with
  | [] => Ok 7
  | _ => Raise (ApiException 400 "Bad Request" (Some "Unknown attribute") None)
  end.

(** No exception other than [ApiException] comes from the remote. *)
Definition only_api_errors (remote : CreateContact -> res Z) : Prop :=
  forall c e, remote c = Raise e -> is_ApiException e = true.

(* ================================================================== *)
(** * Properties of the service *)
(* ================================================================== *)

(** ** The database layer *)

Lemma email_taken_find e t :
  email_taken e t = true <-> exists r, find (has_email e) t = Some r.
Proof.
  unfold email_taken. induction t as [|r t IH]; simpl.
  - split; [discriminate | intros [r H]; discriminate].
  - unfold has_email at 1. destruct (String.eqb (email r) e); simpl.
    + split; eauto.
    + exact IH.
Qed.

Lemma find_has_email e t r :
  find (has_email e) t = Some r -> email r = e /\ In r t.
Proof.
  intros H. apply find_some in H. destruct H as [Hin He].
  apply String.eqb_eq in He. auto.
Qed.

Lemma email_taken_false_find e t :
  email_taken e t = false -> find (has_email e) t = None.
Proof.
  intros H. destruct (find (has_email e) t) eqn:F; [|reflexivity].
  assert (email_taken e t = true) by (apply email_taken_find; eauto).
  congruence.
Qed.

Lemma email_taken_In e t :
  email_taken e t = true <-> In e (map email t).
Proof.
  unfold email_taken. rewrite existsb_exists, in_map_iff.
  split; intros [r [A B]].
  - apply String.eqb_eq in B. eauto.
  - exists r. split; [assumption|]. apply String.eqb_eq. assumption.
Qed.

Lemma count_email_absent e t :
  email_taken e t = false -> count_email e t = 0%nat.
Proof.
  unfold count_email, email_taken. induction t as [|r t IH]; simpl; [reflexivity|].
  unfold has_email at 1. destruct (String.eqb (email r) e); simpl; [discriminate|].
  exact IH.
Qed.

Lemma count_email_unique e t :
  unique_emails t -> email_taken e t = true -> count_email e t = 1%nat.
Proof.
  unfold unique_emails, count_email. induction t as [|r t IH]; simpl.
  - discriminate.
  - intros Hnd Ht. inversion Hnd as [|x l Hnotin Hnd']; subst.
    unfold has_email at 1. destruct (String.eqb (email r) e) eqn:E; simpl.
    + apply String.eqb_eq in E. subst e.
      assert (email_taken (email r) t = false) as Hf.
      { destruct (email_taken (email r) t) eqn:T; [|reflexivity].
        apply email_taken_In in T. contradiction. }
      apply count_email_absent in Hf. unfold count_email in Hf.
      rewrite Hf. reflexivity.
    + simpl in Ht. apply IH; assumption.
Qed.

Lemma count_email_app e t1 t2 :
  count_email e (t1 ++ t2) = (count_email e t1 + count_email e t2)%nat.
Proof. unfold count_email. rewrite filter_app, length_app. reflexivity. Qed.

Lemma check_email_exists_connected e w :
  DatabaseService.check_email_exists None e w =
  (Ok (option_map dict_of_row (find (has_email e) (rows w))),
   mkWorld (rows w) (serial w) (trace w ++ [SqlSelectByEmail e])).
Proof.
  unfold DatabaseService.check_email_exists, try_except, get_db_connection,
    bind, emit, execute_select_by_email, ret, has_email.
  simpl. destruct (find _ _); reflexivity.
Qed.

Lemma check_email_exists_unreachable exc e w :
  DatabaseService.check_email_exists (Some exc) e w =
  (Raise (on_db_exception exc), w).
Proof. reflexivity. Qed.

Lemma db_get_waitlist_count_connected w :
  DatabaseService.get_waitlist_count None w =
  (Ok (Z.of_nat (List.length (rows w))),
   mkWorld (rows w) (serial w) (trace w ++ [SqlCount])).
Proof. reflexivity. Qed.

Lemma db_get_waitlist_count_unreachable exc w :
  DatabaseService.get_waitlist_count (Some exc) w =
  (Raise (on_db_exception exc), w).
Proof. reflexivity. Qed.

Lemma on_db_exception_not_integrity exc :
  is_IntegrityError (on_db_exception exc) = false.
Proof. unfold on_db_exception. destruct (is_psycopg2_Error exc); reflexivity. Qed.

Lemma on_db_exception_http exc :
  is_HTTPException (on_db_exception exc) = true.
Proof. unfold on_db_exception. destruct (is_psycopg2_Error exc); reflexivity. Qed.

Lemma add_waitlist_entry_unreachable exc n1 n2 e nm ref cid st w :
  DatabaseService.add_waitlist_entry (Some exc) n1 n2 e nm ref cid st w =
  (Raise (on_db_exception exc), w).
Proof.
  unfold DatabaseService.add_waitlist_entry, try_except, get_db_connection.
  rewrite on_db_exception_not_integrity. reflexivity.
Qed.

(** The insert on a table without the email: one row appended, the
    position counted in the same transaction. *)
Lemma add_waitlist_entry_fresh n1 n2 e nm ref cid st w :
  has_NUL nm || has_NUL ref = false ->
  email_taken e (rows w) = false ->
  let v := DatabaseService.signup_values n1 n2 e nm ref cid st in
  let r := row_of_values (serial w) v in
  DatabaseService.add_waitlist_entry None n1 n2 e nm ref cid st w =
  (Ok (DatabaseService.mkEntry (dict_of_row r)
         (count_up_to n2 (rows w ++ [r]))),
   mkWorld (rows w ++ [r]) (serial w + 1)
     (trace w ++ [SqlInsert v; SqlCountUpTo n2])).
Proof.
  intros Hs Hf v r.
  unfold DatabaseService.add_waitlist_entry, try_except, get_db_connection,
    bind, emit, execute_insert, execute_count_up_to, storage_insert, ret.
  simpl. rewrite Hs, Hf. simpl. rewrite <- app_assoc. reflexivity.
Qed.

(** The insert on a table that holds the email: the unique index raises
    [IntegrityError] inside the connection scope, which replaces it by
    its own [HTTPException]; the clause for [IntegrityError] in
    [add_waitlist_entry] never sees it. *)
Lemma add_waitlist_entry_taken n1 n2 e nm ref cid st w :
  has_NUL nm || has_NUL ref = false ->
  email_taken e (rows w) = true ->
  DatabaseService.add_waitlist_entry None n1 n2 e nm ref cid st w =
  (Raise (HTTPException HTTP_500_INTERNAL_SERVER_ERROR
            "Database operation failed"),
   mkWorld (rows w) (serial w + 1)
     (trace w ++ [SqlInsert
                    (DatabaseService.signup_values n1 n2 e nm ref cid st)])).
Proof.
  intros Hs Ht.
  unfold DatabaseService.add_waitlist_entry, try_except, get_db_connection,
    bind, emit, execute_insert, storage_insert, ret.
  simpl. rewrite Hs, Ht. reflexivity.
Qed.

(** The insert of a name or a referral source that holds NUL: the
    driver raises [ValueError] before the statement is sent, and the
    connection scope replaces it by its [HTTPException] for unexpected
    errors; table and sequence are as they were. *)
Lemma add_waitlist_entry_refused n1 n2 e nm ref cid st w :
  has_NUL nm || has_NUL ref = true ->
  DatabaseService.add_waitlist_entry None n1 n2 e nm ref cid st w =
  (Raise (HTTPException HTTP_500_INTERNAL_SERVER_ERROR
            "An unexpected error occurred"),
   mkWorld (rows w) (serial w)
     (trace w ++ [SqlInsert
                    (DatabaseService.signup_values n1 n2 e nm ref cid st)])).
Proof.
  intros Hs.
  unfold DatabaseService.add_waitlist_entry, try_except, get_db_connection,
    bind, emit, execute_insert, ret.
  simpl. rewrite Hs. reflexivity.
Qed.

Lemma storable_no_NUL sub :
  storable sub ->
  has_NUL (sub_name sub) || has_NUL (sub_referral_source sub) = false.
Proof. intros [-> ->]. reflexivity. Qed.

(** ** The adapter *)

Ltac world_eq :=
  simpl; rewrite ?app_nil_r, <- ?app_assoc; reflexivity.

(** The adapter returns a dictionary on every input, leaves the table
    alone and logs its remote call. *)
Lemma add_contact_to_list_returns cfg reply now e nm ref position :
  exists r,
    forall w,
      BrevoService.add_contact_to_list cfg reply now e nm ref position w =
      (Ok r, mkWorld (rows w) (serial w)
               (trace w ++ sync_events cfg now e nm ref position)).
Proof.
  unfold BrevoService.add_contact_to_list, sync_events, try_except, bind,
    lift, emit, ret.
  destruct (BrevoService.contact_attributes now nm ref position) as [a|ea].
  - destruct reply as [n|er].
    + eexists. intros [t s tr]. world_eq.
    + destruct er as [c p|c d|st rs b hd|m|m|m|m];
        try (eexists; intros [t s tr]; world_eq).
      destruct ((st =? 400) && PyStr.contains "Contact already exist" (str_opt b));
        [|destruct (st =? 401); [|destruct (st =? 404)]];
        eexists; intros [t s tr]; world_eq.
  - destruct ea as [c p|c d|st rs b hd|m|m|m|m];
      try (eexists; intros [t s tr]; world_eq).
    destruct ((st =? 400) && PyStr.contains "Contact already exist" (str_opt b));
      [|destruct (st =? 401); [|destruct (st =? 404)]];
      eexists; intros [t s tr]; world_eq.
Qed.

Lemma test_connection_returns reply :
  exists c,
    forall w,
      BrevoService.test_connection reply w =
      (Ok c, mkWorld (rows w) (serial w) (trace w ++ [BrevoGetAccount])).
Proof.
  unfold BrevoService.test_connection, try_except, bind, lift, emit, ret.
  destruct reply as [a|e].
  - eexists. intros [t s tr]. reflexivity.
  - destruct (is_ApiException e); eexists; intros [t s tr]; reflexivity.
Qed.

(** ** The signup handler *)

(** Existence check finds the email: one read, the duplicate result. *)
Lemma add_to_waitlist_existing cfg env sub w r :
  check_connect env = None ->
  find (has_email (sub_email sub)) (rows w) = Some r ->
  add_to_waitlist cfg env sub w =
  (Ok (duplicate_response (sub_email sub) (created_at r)),
   mkWorld (rows w) (serial w) (trace w ++ [SqlSelectByEmail (sub_email sub)])).
Proof.
  intros Hc Hf. unfold add_to_waitlist, try_except, bind.
  rewrite Hc, check_email_exists_connected, Hf. reflexivity.
Qed.

(** Existence check passes: what follows, with the table as the racing
    inserts leave it.  [r] and its remote calls are the adapter's. *)
Lemma add_to_waitlist_absent cfg env sub w r :
  check_connect env = None ->
  count_connect env = None ->
  insert_connect env = None ->
  email_taken (sub_email sub) (rows w) = false ->
  let t1 := fst (raced (racing env) (rows w) (serial w)) in
  let n1 := snd (raced (racing env) (rows w) (serial w)) in
  let position0 := Z.of_nat (List.length t1) + 1 in
  let evs := sync_events cfg (now_signup env) (sub_email sub) (sub_name sub)
               (sub_referral_source sub) position0 in
  let v := DatabaseService.signup_values (now_synced env) (now_created env)
             (sub_email sub) (sub_name sub) (sub_referral_source sub)
             (BrevoService.contact_id r) (BrevoService.sync_status r) in
  let stored := row_of_values n1 v in
  (forall w0,
      BrevoService.add_contact_to_list cfg (create_contact_reply env)
        (now_signup env) (sub_email sub) (sub_name sub)
        (sub_referral_source sub) position0 w0 =
      (Ok r, mkWorld (rows w0) (serial w0) (trace w0 ++ evs))) ->
  add_to_waitlist cfg env sub w =
  if has_NUL (sub_name sub) || has_NUL (sub_referral_source sub) then
    (Raise (HTTPException HTTP_500_INTERNAL_SERVER_ERROR
              "An unexpected error occurred"),
     mkWorld t1 n1
       (trace w ++ [SqlSelectByEmail (sub_email sub); SqlCount] ++ evs ++
        [SqlInsert v]))
  else if email_taken (sub_email sub) t1 then
    (Raise (HTTPException HTTP_500_INTERNAL_SERVER_ERROR
              "Database operation failed"),
     mkWorld t1 (n1 + 1)
       (trace w ++ [SqlSelectByEmail (sub_email sub); SqlCount] ++ evs ++
        [SqlInsert v]))
  else
    (Ok (created_response stored
           (count_up_to (now_created env) (t1 ++ [stored]))
           (BrevoService.sync_status r)),
     mkWorld (t1 ++ [stored]) (n1 + 1)
       (trace w ++ [SqlSelectByEmail (sub_email sub); SqlCount] ++ evs ++
        [SqlInsert v; SqlCountUpTo (now_created env)])).
Proof.
  intros Hc Hn Hi Hf t1 n1 position0 evs v stored Hsync.
  unfold add_to_waitlist, try_except, bind.
  rewrite Hc, check_email_exists_connected.
  rewrite (email_taken_false_find _ _ Hf).
  cbn [option_map]. unfold interleave. cbn [rows serial trace].
  fold t1. fold n1.
  rewrite Hn, db_get_waitlist_count_connected. cbn [rows serial trace].
  fold position0. rewrite Hsync. cbn [rows serial trace]. rewrite Hi.
  destruct (has_NUL (sub_name sub) || has_NUL (sub_referral_source sub)) eqn:Hs.
  { rewrite add_waitlist_entry_refused by exact Hs.
    cbn [rows serial trace is_HTTPException]. unfold raise.
    f_equal. f_equal. rewrite <- !app_assoc. reflexivity. }
  destruct (email_taken (sub_email sub) t1) eqn:Ht.
  - rewrite add_waitlist_entry_taken by assumption.
    cbn [rows serial trace is_HTTPException]. unfold raise.
    f_equal. f_equal. rewrite <- !app_assoc. reflexivity.
  - rewrite add_waitlist_entry_fresh by assumption.
    cbn [rows serial trace]. unfold ret.
    f_equal. f_equal. rewrite <- !app_assoc. reflexivity.
Qed.

Lemma find_app_absent e t r :
  email_taken e t = false -> email r = e ->
  find (has_email e) (t ++ [r]) = Some r.
Proof.
  unfold email_taken. induction t as [|x t IH]; simpl; intros Hf He.
  - unfold has_email. rewrite He, String.eqb_refl. reflexivity.
  - unfold has_email at 1.
    destruct (String.eqb (email x) e); simpl in Hf; [discriminate|].
    apply IH; assumption.
Qed.

Lemma post_waitlist_existing cfg env sub w r :
  check_connect env = None ->
  find (has_email (sub_email sub)) (rows w) = Some r ->
  post_waitlist cfg env sub w =
  (mkHttp HTTP_201_CREATED
     (WaitlistResponse_json (duplicate_response (sub_email sub) (created_at r))),
   mkWorld (rows w) (serial w) (trace w ++ [SqlSelectByEmail (sub_email sub)])).
Proof.
  intros Hc Hf. unfold post_waitlist, serve.
  rewrite (add_to_waitlist_existing cfg env sub w r Hc Hf). reflexivity.
Qed.

(** A sequential request on a reachable database leaves the submitted
    email stored exactly once, whatever the adapter reported. *)
Lemma post_waitlist_stores_once cfg env sub w :
  unique_emails (rows w) -> db_reachable env -> sequential env ->
  storable sub ->
  let w1 := snd (post_waitlist cfg env sub w) in
  count_email (sub_email sub) (rows w1) = 1%nat /\
  exists r, find (has_email (sub_email sub)) (rows w1) = Some r.
Proof.
  intros Hu (Hc & Hn & Hi) Hs Hst. apply storable_no_NUL in Hst.
  unfold post_waitlist, serve.
  destruct (email_taken (sub_email sub) (rows w)) eqn:Ht.
  - destruct (proj1 (email_taken_find _ _) Ht) as [r Hr].
    rewrite (add_to_waitlist_existing cfg env sub w r Hc Hr). simpl.
    split; [apply count_email_unique; assumption | eauto].
  - destruct (add_contact_to_list_returns cfg (create_contact_reply env)
                (now_signup env) (sub_email sub) (sub_name sub)
                (sub_referral_source sub)
                (Z.of_nat (List.length
                   (fst (raced (racing env) (rows w) (serial w)))) + 1))
      as [r Hr].
    rewrite (add_to_waitlist_absent cfg env sub w r Hc Hn Hi Ht Hr), Hst.
    unfold sequential in Hs. rewrite Hs. cbn [raced fold_left fst snd].
    rewrite Ht. cbn [snd rows].
    split.
    + rewrite count_email_app, (count_email_absent _ _ Ht).
      unfold count_email, has_email. simpl.
      rewrite String.eqb_refl. reflexivity.
    + eexists. apply find_app_absent; [exact Ht | reflexivity].
Qed.

(** C1. A submission whose email has an entry in the table is answered
    with [success=false], the code EMAIL_ALREADY_EXISTS and the stored
    entry's [created_at], after one [SELECT] and no write; hence two
    submissions of one email in sequence, with a name and a referral
    source that the database accepts, leave exactly one row, the second
    being answered as a duplicate without changing the table. *)
Theorem resubmission_is_rejected_without_write :
  forall cfg sub env,
    check_connect env = None ->
    (forall w r,
        find (has_email (sub_email sub)) (rows w) = Some r ->
        post_waitlist cfg env sub w =
        (mkHttp HTTP_201_CREATED
           (JObj [("success", JBool false);
                  ("message", JStr "This email has already been registered!");
                  ("data", JObj [("email", JStr (sub_email sub));
                                 ("registered_at", JIso (created_at r))]);
                  ("error_code", JStr "EMAIL_ALREADY_EXISTS")]),
         mkWorld (rows w) (serial w)
           (trace w ++ [SqlSelectByEmail (sub_email sub)]))) /\
    (forall env0 w0,
        unique_emails (rows w0) -> db_reachable env0 -> sequential env0 ->
        storable sub ->
        let w1 := snd (post_waitlist cfg env0 sub w0) in
        let (second, w2) := post_waitlist cfg env sub w1 in
        json_get "success" (http_body second) = Some (JBool false) /\
        json_get "error_code" (http_body second) =
          Some (JStr "EMAIL_ALREADY_EXISTS") /\
        rows w2 = rows w1 /\
        count_email (sub_email sub) (rows w2) = 1%nat).
Proof.
  intros cfg sub env Hc. split.
  - intros w r Hf. rewrite (post_waitlist_existing cfg env sub w r Hc Hf).
    reflexivity.
  - intros env0 w0 Hu Hr Hs Hst w1.
    destruct (post_waitlist_stores_once cfg env0 sub w0 Hu Hr Hs Hst)
      as [Hcount [r Hf]].
    fold w1 in Hcount, Hf.
    rewrite (post_waitlist_existing cfg env sub w1 r Hc Hf).
    cbn [http_body rows]. repeat split; try reflexivity. exact Hcount.
Qed.

Lemma resubmission_is_rejected_witness :
  post_waitlist sample_cfg env_ok (parse_submission "A@x.com" None None)
    (mkWorld [sample_row] 2 []) =
  (mkHttp HTTP_201_CREATED
     (JObj [("success", JBool false);
            ("message", JStr "This email has already been registered!");
            ("data", JObj [("email", JStr "a@x.com");
                           ("registered_at", JIso 12)]);
            ("error_code", JStr "EMAIL_ALREADY_EXISTS")]),
   mkWorld [sample_row] 2 [SqlSelectByEmail "a@x.com"]) /\
  (let w1 := snd (post_waitlist sample_cfg env_auth_failure
                    (parse_submission "A@x.com" None None) empty_world) in
   let (second, w2) :=
     post_waitlist sample_cfg env_ok (parse_submission "A@x.com" None None) w1 in
   json_get "success" (http_body second) = Some (JBool false) /\
   json_get "error_code" (http_body second) =
     Some (JStr "EMAIL_ALREADY_EXISTS") /\
   rows w2 = rows w1 /\
   count_email "a@x.com" (rows w2) = 1%nat).
Proof.
  destruct (resubmission_is_rejected_without_write sample_cfg
              (parse_submission "A@x.com" None None) env_ok eq_refl)
    as [A B].
  split.
  - exact (A (mkWorld [sample_row] 2 []) sample_row eq_refl).
  - exact (B env_auth_failure empty_world (NoDup_nil _)
             (conj eq_refl (conj eq_refl eq_refl)) eq_refl
             (conj eq_refl eq_refl)).
Defined.

(** ** The race between the existence check and the insert *)

(** C2.  The specification asks that a request whose insert meets the
    unique index (another request stored the same email after this
    request's existence check) be answered with the code
    EMAIL_ALREADY_EXISTS.  The code answers otherwise.  The
    [IntegrityError] is raised inside the connection scope, whose clause
    for [psycopg2.Error] replaces it by the [HTTPException] 500 of a
    failed database operation; the clause for [IntegrityError] in
    [add_waitlist_entry], which would answer 409, is written around that
    scope and never sees the error.  The client receives status 500 with
    the text of a database failure and no error code, the same answer as
    for an unreachable database. *)
Theorem race_duplicate_is_reported_as_database_failure :
  forall cfg env sub w,
    db_reachable env ->
    storable sub ->
    insert_hits_unique_index env sub w ->
    fst (post_waitlist cfg env sub w) =
      mkHttp 500
        (JObj [("success", JBool false);
               ("error", JStr "Database operation failed");
               ("status_code", JInt 500)]) /\
    json_get "error_code" (http_body (fst (post_waitlist cfg env sub w))) = None /\
    fst (post_waitlist cfg env sub w) =
      database_error_response
        (Psycopg2Error OperationalError "could not connect to server") /\
    rows (snd (post_waitlist cfg env sub w)) = table_after_race env w.
Proof.
  intros cfg env sub w (Hc & Hn & Hi) Hst [Hf Ht].
  apply storable_no_NUL in Hst.
  destruct (add_contact_to_list_returns cfg (create_contact_reply env)
              (now_signup env) (sub_email sub) (sub_name sub)
              (sub_referral_source sub)
              (Z.of_nat (List.length
                 (fst (raced (racing env) (rows w) (serial w)))) + 1))
    as [r Hr].
  unfold post_waitlist, serve, table_after_race.
  rewrite (add_to_waitlist_absent cfg env sub w r Hc Hn Hi Hf Hr), Hst, Ht.
  repeat split; reflexivity.
Qed.

(** The failing input of C2: a request for [a@x.com] passes the
    existence check on the empty table, another request commits
    [a@x.com], and the insert raises [IntegrityError]. *)
Lemma race_duplicate_witness :
  insert_hits_unique_index env_raced
    (parse_submission "a@x.com" None None) empty_world /\
  fst (execute_insert
         (DatabaseService.signup_values 101 102 "a@x.com" None None
            (Some "42") SUCCESS)
         (mkWorld (fst (raced (racing env_raced) [] 1))
            (snd (raced (racing env_raced) [] 1)) [])) =
    Raise (Psycopg2Error IntegrityError
             "duplicate key value violates unique constraint") /\
  fst (post_waitlist sample_cfg env_raced
         (parse_submission "a@x.com" None None) empty_world) =
    mkHttp 500
      (JObj [("success", JBool false);
             ("error", JStr "Database operation failed");
             ("status_code", JInt 500)]) /\
  json_get "error_code"
    (http_body
       (fst (post_waitlist sample_cfg env_raced
               (parse_submission "a@x.com" None None) empty_world))) <>
    Some (JStr "EMAIL_ALREADY_EXISTS").
Proof.
  destruct (race_duplicate_is_reported_as_database_failure sample_cfg env_raced
              (parse_submission "a@x.com" None None) empty_world
              (conj eq_refl (conj eq_refl eq_refl))
              (conj eq_refl eq_refl)
              (conj eq_refl eq_refl)) as (Hresp & Hcode & _ & _).
  split; [split; reflexivity|]. split; [reflexivity|].
  split; [exact Hresp|]. rewrite Hcode. discriminate.
Defined.

(** ** Sync before write, write whatever the sync outcome *)

Lemma lstrip_by_idem p s :
  PyStr.lstrip_by p (PyStr.lstrip_by p s) = PyStr.lstrip_by p s.
Proof.
  induction s as [|c s IH]; simpl; [reflexivity|].
  destruct (p c) eqn:E; [exact IH|]. simpl. rewrite E. reflexivity.
Qed.

Lemma split_max1_strip_nonempty s c x :
  PyStr.strip s = String c x -> PyStr.split_max1 (PyStr.strip s) <> [].
Proof.
  intros H. unfold PyStr.split_max1.
  assert (PyStr.lstrip_by PyStr.is_space (PyStr.strip s) = String c x) as L.
  { unfold PyStr.strip, PyStr.strip_by in *. rewrite lstrip_by_idem. exact H. }
  rewrite L.
  destruct (PyStr.break_space (String c x)) as [wd rest].
  destruct (PyStr.lstrip_by PyStr.is_space rest); discriminate.
Qed.

(** A name that went through [name_must_be_clean] never makes the
    attribute computation raise. *)
Lemma contact_attributes_clean now raw ref position :
  exists a,
    BrevoService.contact_attributes now (name_must_be_clean raw) ref position
    = Ok a.
Proof.
  unfold BrevoService.contact_attributes.
  destruct raw as [s|]; simpl; [|eexists; reflexivity].
  destruct (PyStr.truthy s) eqn:T; simpl.
  - destruct (PyStr.strip s) as [|c x] eqn:S; simpl; [eexists; reflexivity|].
    pose proof (split_max1_strip_nonempty s c x S) as N. rewrite S in N.
    destruct (PyStr.split_max1 (String c x)) as [|f [|l rest]];
      [congruence | eexists; reflexivity | eexists; reflexivity].
  - rewrite T. eexists; reflexivity.
Qed.

Lemma sync_events_clean cfg now e raw ref position :
  exists contact,
    cc_email contact = e /\
    sync_events cfg now e (name_must_be_clean raw) ref position =
    [BrevoCreateContact contact].
Proof.
  unfold sync_events.
  destruct (contact_attributes_clean now raw ref position) as [a Ha].
  rewrite Ha.
  exists (mkCreateContact e a [BREVO_WAITLIST_ID cfg] true).
  split; reflexivity.
Qed.

Lemma raced_nil t n : raced [] t n = (t, n).
Proof. reflexivity. Qed.



(** ** The adapter classifies and never raises *)

(** The adapter's dictionary, read off the condition it met. *)
Lemma add_contact_to_list_classifies cfg reply now e nm ref position w :
  exists r,
    BrevoService.add_contact_to_list cfg reply now e nm ref position w =
      (Ok r, mkWorld (rows w) (serial w)
               (trace w ++ sync_events cfg now e nm ref position)) /\
    (BrevoService.sync_status r, BrevoService.error_code r) =
      classification (condition_met now nm ref position reply) /\
    BrevoService.contact_id r =
      contact_id_of (condition_met now nm ref position reply).
Proof.
  unfold BrevoService.add_contact_to_list, sync_events, condition_met,
    try_except, bind, lift, emit, ret.
  destruct w as [t s tr].
  destruct (BrevoService.contact_attributes now nm ref position) as [a|ea].
  - destruct reply as [n|er].
    + eexists. split; [world_eq|]. split; reflexivity.
    + destruct er as [c p|c d|st rs b hd|m|m|m|m];
        try (eexists; split; [world_eq|]; split; reflexivity).
      unfold condition_of_exn.
      destruct ((st =? 400) && PyStr.contains "Contact already exist" (str_opt b));
        [|destruct (st =? 401); [|destruct (st =? 404)]];
        (eexists; split; [world_eq|]; split; reflexivity).
  - destruct ea as [c p|c d|st rs b hd|m|m|m|m];
      try (eexists; split; [world_eq|]; split; reflexivity).
    unfold condition_of_exn.
    destruct ((st =? 400) && PyStr.contains "Contact already exist" (str_opt b));
      [|destruct (st =? 401); [|destruct (st =? 404)]];
      (eexists; split; [world_eq|]; split; reflexivity).
Qed.

(** C4, as stated, fails.  Brevo answering with status 500 is a remote
    error other than the three named ones; the adapter reports it with
    the code BREVO_API_ERROR, not with the code of unexpected
    failures. *)
Lemma remote_server_error_has_its_own_code :
  condition_met 100 None None 1
    (Raise (ApiException 500 "Internal Server Error" None None)) = OtherRemoteError /\
  exists r,
    fst (BrevoService.add_contact_to_list sample_cfg
           (Raise (ApiException 500 "Internal Server Error" None None))
           100 "a@x.com" None None 1 empty_world) = Ok r /\
    BrevoService.error_code r = Some "BREVO_API_ERROR" /\
    (BrevoService.sync_status r, BrevoService.error_code r) <>
      classification_as_stated
        (condition_met 100 None None 1
           (Raise (ApiException 500 "Internal Server Error" None None))).
Proof.
  split; [reflexivity|]. eexists. split; [reflexivity|].
  split; [reflexivity|]. vm_compute. discriminate.
Qed.

(** C4, amended.  On every input the adapter returns a dictionary and
    leaves the table alone.  A contact that already exists remotely
    gives [success]; an authentication failure gives [failed] with
    BREVO_AUTH_FAILED; a missing list gives [failed] with
    BREVO_LIST_NOT_FOUND; any other error of the remote API gives
    [failed] with BREVO_API_ERROR; any other exception gives [failed]
    with BREVO_UNEXPECTED_ERROR. *)
Theorem adapter_classifies_every_outcome :
  forall cfg reply now e nm ref position w,
  exists r w',
    BrevoService.add_contact_to_list cfg reply now e nm ref position w =
      (Ok r, w') /\
    rows w' = rows w /\ serial w' = serial w /\
    (BrevoService.sync_status r, BrevoService.error_code r) =
      classification (condition_met now nm ref position reply).
Proof.
  intros cfg reply now e nm ref position w.
  destruct (add_contact_to_list_classifies cfg reply now e nm ref position w)
    as (r & Hrun & Hclass & _).
  exists r. eexists. split; [exact Hrun|]. repeat split. exact Hclass.
Qed.

(** ** A successful sync without a contact id *)

(** C10. When Brevo answers that the contact already exists, the adapter
    reports [success] without a contact id; and when the entry for that
    submission is inserted (a new email, the database reachable, name
    and referral source accepted by it), the row has
    [brevo_sync_status = success], a null [brevo_contact_id] and
    [brevo_synced_at] set to the clock reading taken for it. *)
Theorem existing_contact_is_stored_without_contact_id :
  forall cfg env raw_email raw_name raw_referral w reason body headers,
    let sub := parse_submission raw_email raw_name raw_referral in
    db_reachable env ->
    sequential env ->
    storable sub ->
    email_taken (sub_email sub) (rows w) = false ->
    create_contact_reply env = Raise (ApiException 400 reason body headers) ->
    PyStr.contains "Contact already exist" (str_opt body) = true ->
    exists outcome stored,
      fst (BrevoService.add_contact_to_list cfg (create_contact_reply env)
             (now_signup env) (sub_email sub) (sub_name sub)
             (sub_referral_source sub)
             (Z.of_nat (List.length (rows w)) + 1) w) = Ok outcome /\
      BrevoService.sync_status outcome = SUCCESS /\
      BrevoService.contact_id outcome = None /\
      rows (snd (add_to_waitlist cfg env sub w)) = (rows w ++ [stored])%list /\
      email stored = sub_email sub /\
      brevo_sync_status stored = SUCCESS /\
      brevo_contact_id stored = None /\
      brevo_synced_at stored = Some (now_synced env).
Proof.
  intros cfg env raw_email raw_name raw_referral w reason body headers sub
    (Hc & Hn & Hi) Hs Hsto Hf Hreply Hbody.
  unfold sequential in Hs. apply storable_no_NUL in Hsto.
  set (position0 := Z.of_nat (List.length (rows w)) + 1).
  destruct (add_contact_to_list_returns cfg (create_contact_reply env)
              (now_signup env) (sub_email sub) (sub_name sub)
              (sub_referral_source sub) position0) as [r Hr].
  destruct (add_contact_to_list_classifies cfg (create_contact_reply env)
              (now_signup env) (sub_email sub) (sub_name sub)
              (sub_referral_source sub) position0 w)
    as (r' & Hrun & Hclass & Hid).
  rewrite Hr in Hrun. injection Hrun as <-.
  assert (condition_met (now_signup env) (sub_name sub)
            (sub_referral_source sub) position0 (create_contact_reply env) =
          ContactAlreadyExists) as Hcond.
  { unfold condition_met.
    destruct (contact_attributes_clean (now_signup env) raw_name
                raw_referral position0) as [a Ha].
    change (name_must_be_clean raw_name) with (sub_name sub) in Ha.
    change raw_referral with (sub_referral_source sub) in Ha.
    rewrite Ha, Hreply. unfold condition_of_exn.
    rewrite Hbody. reflexivity. }
  rewrite Hcond in Hclass, Hid. cbn [classification contact_id_of] in Hclass, Hid.
  injection Hclass as Hst _.
  pose proof (add_to_waitlist_absent cfg env sub w) as Habs.
  rewrite Hs, raced_nil in Habs. cbn [fst snd] in Habs.
  specialize (Habs r Hc Hn Hi Hf Hr). rewrite Hsto, Hf in Habs.
  exists r. eexists.
  split; [rewrite Hr; reflexivity|].
  split; [exact Hst|]. split; [exact Hid|].
  rewrite Habs. cbn [snd rows].
  split; [reflexivity|].
  cbn [row_of_values DatabaseService.signup_values email brevo_sync_status
       brevo_contact_id brevo_synced_at v_email v_brevo_sync_status
       v_brevo_contact_id v_brevo_synced_at].
  rewrite Hst, Hid. repeat split; reflexivity.
Qed.

Lemma existing_contact_witness :
  exists stored,
    rows (snd (add_to_waitlist sample_cfg env_contact_exists
                 (parse_submission "c@x.com" None (Some "friend"))
                 empty_world)) = [stored] /\
    brevo_sync_status stored = SUCCESS /\
    brevo_contact_id stored = None /\
    brevo_synced_at stored = Some 301.
Proof.
  destruct (existing_contact_is_stored_without_contact_id sample_cfg
              env_contact_exists "c@x.com" None (Some "friend") empty_world
              "Bad Request"
              (Some "{'code':'duplicate_parameter','message':'Contact already exist'}")
              None
              (conj eq_refl (conj eq_refl eq_refl)) eq_refl
              (conj eq_refl eq_refl) eq_refl eq_refl eq_refl)
    as (outcome & stored & _ & _ & _ & Hrows & _ & Hst & Hid & Hat).
  exists stored. repeat split; assumption.
Defined.

(** ** Positions *)

Lemma add_to_waitlist_check_unreachable cfg env sub w exc :
  check_connect env = Some exc ->
  add_to_waitlist cfg env sub w = (Raise (on_db_exception exc), w).
Proof.
  intros Hc. unfold add_to_waitlist, try_except, bind.
  rewrite Hc, check_email_exists_unreachable, on_db_exception_http.
  reflexivity.
Qed.

Lemma add_to_waitlist_count_unreachable cfg env sub w exc :
  check_connect env = None ->
  email_taken (sub_email sub) (rows w) = false ->
  count_connect env = Some exc ->
  fst (add_to_waitlist cfg env sub w) = Raise (on_db_exception exc).
Proof.
  intros Hc Hf Hn. unfold add_to_waitlist, try_except, bind.
  rewrite Hc, check_email_exists_connected.
  rewrite (email_taken_false_find _ _ Hf).
  cbn [option_map]. unfold interleave.
  rewrite Hn, db_get_waitlist_count_unreachable, on_db_exception_http.
  reflexivity.
Qed.

Lemma add_to_waitlist_insert_unreachable cfg env sub w exc :
  check_connect env = None ->
  email_taken (sub_email sub) (rows w) = false ->
  count_connect env = None ->
  insert_connect env = Some exc ->
  fst (add_to_waitlist cfg env sub w) = Raise (on_db_exception exc).
Proof.
  intros Hc Hf Hn Hi. unfold add_to_waitlist, try_except, bind.
  rewrite Hc, check_email_exists_connected.
  rewrite (email_taken_false_find _ _ Hf).
  cbn [option_map]. unfold interleave.
  rewrite Hn, db_get_waitlist_count_connected. cbn [rows serial trace].
  match goal with
  | |- context [BrevoService.add_contact_to_list ?c ?rp ?n ?e ?nm ?rf ?p ?w0] =>
      destruct (add_contact_to_list_returns c rp n e nm rf p) as [r Hr];
      rewrite (Hr w0)
  end.
  rewrite Hi, add_waitlist_entry_unreachable, on_db_exception_http.
  reflexivity.
Qed.

Lemma serve_raise_not_success {A} code (to_json : A -> json) exc (w : world) m :
  fst (m w) = Raise (on_db_exception exc) ->
  json_get "success" (http_body (fst (serve code to_json m w))) =
  Some (JBool false).
Proof.
  unfold serve. destruct (m w) as [[a|e] w']; simpl; intros H; [discriminate|].
  injection H as ->. unfold on_db_exception.
  destruct (is_psycopg2_Error exc); reflexivity.
Qed.

Lemma count_up_to_latest t tbl r :
  Forall (fun x => created_at x < t) tbl ->
  created_at r = t ->
  count_up_to t (tbl ++ [r]) = Z.of_nat (List.length tbl) + 1.
Proof.
  intros Hall Hr. unfold count_up_to.
  rewrite filter_app, length_app. simpl. rewrite Hr, Z.leb_refl. simpl.
  replace (filter (fun x => created_at x <=? t) tbl) with tbl.
  - lia.
  - induction Hall as [|x l Hx Hl IH]; simpl; [reflexivity|].
    replace (created_at x <=? t) with true by (symmetry; apply Z.leb_le; lia).
    f_equal. exact IH.
Qed.

(** A sequential request for a new email on a reachable database. *)
Lemma post_waitlist_new cfg env sub w :
  db_reachable env -> sequential env -> storable sub ->
  email_taken (sub_email sub) (rows w) = false ->
  exists r evs,
    let stored :=
      row_of_values (serial w)
        (DatabaseService.signup_values (now_synced env) (now_created env)
           (sub_email sub) (sub_name sub) (sub_referral_source sub)
           (BrevoService.contact_id r) (BrevoService.sync_status r)) in
    post_waitlist cfg env sub w =
    (mkHttp HTTP_201_CREATED
       (WaitlistResponse_json
          (created_response stored
             (count_up_to (now_created env) (rows w ++ [stored]))
             (BrevoService.sync_status r))),
     mkWorld (rows w ++ [stored]) (serial w + 1) (trace w ++ evs)).
Proof.
  intros (Hc & Hn & Hi) Hs Hst Hf. unfold sequential in Hs.
  apply storable_no_NUL in Hst.
  pose proof (add_to_waitlist_absent cfg env sub w) as Habs.
  rewrite Hs, raced_nil in Habs. cbn [fst snd] in Habs.
  destruct (add_contact_to_list_returns cfg (create_contact_reply env)
              (now_signup env) (sub_email sub) (sub_name sub)
              (sub_referral_source sub)
              (Z.of_nat (List.length (rows w)) + 1)) as [r Hr].
  specialize (Habs r Hc Hn Hi Hf Hr). rewrite Hst, Hf in Habs.
  exists r. eexists. unfold post_waitlist, serve. rewrite Habs. reflexivity.
Qed.

(** A response with [success=true] comes from the insert of a row, and
    its position is the count taken on the table as the insert left
    it. *)
Lemma created_position_is_count cfg env sub w :
  json_get "success" (http_body (fst (post_waitlist cfg env sub w))) =
    Some (JBool true) ->
  exists stored,
    In stored (rows (snd (post_waitlist cfg env sub w))) /\
    email stored = sub_email sub /\
    created_at stored = now_created env /\
    response_position (fst (post_waitlist cfg env sub w)) =
      Some (JInt (count_up_to (created_at stored)
                    (rows (snd (post_waitlist cfg env sub w))))).
Proof.
  intros Hok. unfold post_waitlist in *.
  destruct (check_connect env) as [exc|] eqn:Hc.
  { rewrite (serve_raise_not_success _ _ exc) in Hok; [discriminate|].
    rewrite (add_to_waitlist_check_unreachable cfg env sub w exc Hc).
    reflexivity. }
  destruct (email_taken (sub_email sub) (rows w)) eqn:Hf.
  { destruct (proj1 (email_taken_find _ _) Hf) as [r Hr].
    unfold serve in Hok.
    rewrite (add_to_waitlist_existing cfg env sub w r Hc Hr) in Hok.
    discriminate. }
  destruct (count_connect env) as [exc|] eqn:Hn.
  { rewrite (serve_raise_not_success _ _ exc) in Hok; [discriminate|].
    apply add_to_waitlist_count_unreachable; assumption. }
  destruct (insert_connect env) as [exc|] eqn:Hi.
  { rewrite (serve_raise_not_success _ _ exc) in Hok; [discriminate|].
    apply add_to_waitlist_insert_unreachable; assumption. }
  destruct (add_contact_to_list_returns cfg (create_contact_reply env)
              (now_signup env) (sub_email sub) (sub_name sub)
              (sub_referral_source sub)
              (Z.of_nat (List.length
                 (fst (raced (racing env) (rows w) (serial w)))) + 1))
    as [r Hr].
  unfold serve in *.
  rewrite (add_to_waitlist_absent cfg env sub w r Hc Hn Hi Hf Hr) in *.
  destruct (has_NUL (sub_name sub) || has_NUL (sub_referral_source sub)).
  { discriminate. }
  destruct (email_taken (sub_email sub)
              (fst (raced (racing env) (rows w) (serial w)))) eqn:Ht.
  { discriminate. }
  eexists. cbn [fst snd rows].
  split; [apply in_or_app; right; left; reflexivity|].
  repeat split.
Qed.

Lemma email_taken_app e t1 t2 :
  email_taken e (t1 ++ t2) = email_taken e t1 || email_taken e t2.
Proof. unfold email_taken. apply existsb_app. Qed.

(** Positions of a run of sequential signups: distinct new emails with
    clock readings increasing beyond those in the table are numbered
    consecutively from the size of the table. *)
Lemma run_requests_positions cfg reqs :
  forall w,
    Forall in_sequence reqs ->
    Forall (fun q : request => storable (snd q)) reqs ->
    NoDup (map request_email reqs) ->
    Forall (fun q => email_taken (request_email q) (rows w) = false) reqs ->
    StronglySorted Z.lt (map request_created_at reqs) ->
    Forall (fun q => Forall (fun r => created_at r < request_created_at q)
                       (rows w)) reqs ->
    map response_position (fst (run_requests cfg reqs w)) =
    map (fun i => Some (JInt (Z.of_nat (List.length (rows w)) + Z.of_nat i)))
      (seq 1 (List.length reqs)).
Proof.
  induction reqs as [|[env sub] reqs IH]; intros w Hseq Hsto Hnd Hnew Hsort Hlate.
  - reflexivity.
  - inversion Hseq as [|q l [Hr Hs] Hseq']; subst.
    inversion Hsto as [|q l Hst Hsto']; subst.
    inversion Hnd as [|e l Hnotin Hnd']; subst.
    inversion Hnew as [|q l Hf Hnew']; subst.
    inversion Hsort as [|t l Hsort' Hhd]; subst.
    inversion Hlate as [|q l Hl Hlate']; subst.
    cbn [request_email request_created_at fst snd] in *.
    destruct (post_waitlist_new cfg env sub w Hr Hs Hst Hf) as (r & evs & Hrun).
    cbn zeta in Hrun.
    cbn [run_requests]. rewrite Hrun.
    set (stored := row_of_values (serial w) _) in *.
    set (w1 := mkWorld (rows w ++ [stored]) (serial w + 1) (trace w ++ evs)).
    specialize (IH w1).
    destruct (run_requests cfg reqs w1) as [rs w2] eqn:Hrest.
    cbn [fst map List.length seq]. f_equal.
    + unfold response_position. cbn [http_body WaitlistResponse_json json_get
                                      assoc String.eqb Ascii.eqb Bool.eqb
                                      data created_response].
      rewrite count_up_to_latest; [reflexivity | exact Hl | reflexivity].
    + cbn [fst] in IH. rewrite IH; try assumption.
      * rewrite <- (seq_shift (List.length reqs) 1), map_map. apply map_ext. intros i.
        unfold w1. cbn [rows]. rewrite length_app. cbn [List.length].
        do 2 f_equal. lia.
      * unfold w1. cbn [rows].
        rewrite Forall_forall in *. intros q Hq.
        rewrite email_taken_app, (Hnew' q Hq). cbn [orb].
        unfold email_taken. cbn [existsb]. rewrite orb_false_r.
        apply String.eqb_neq. intros Heq. apply Hnotin.
        apply in_map_iff. exists q. split; [|exact Hq].
        unfold request_email. symmetry. exact Heq.
      * unfold w1. cbn [rows].
        rewrite Forall_forall in *. intros q Hq.
        apply Forall_forall. intros x Hx.
        apply in_app_or in Hx. destruct Hx as [Hx|[<-|[]]].
        -- specialize (Hlate' q Hq). rewrite Forall_forall in Hlate'.
           apply Hlate'. exact Hx.
        -- apply (Hhd (request_created_at q)).
           apply in_map. exact Hq.
Qed.

(** C5. The position reported for a created entry is the number of rows
    whose [created_at] is at most the entry's, counted on the table right
    after the insert; hence distinct emails signed up one after the
    other, with increasing [created_at] later than that of every row
    already stored, are numbered consecutively after the rows already
    stored: on an empty table they are reported the positions
    1, 2, ..., N in that order. *)
Theorem position_is_rank_by_creation_time :
  forall cfg,
    (forall env sub w,
        json_get "success" (http_body (fst (post_waitlist cfg env sub w))) =
          Some (JBool true) ->
        exists stored,
          In stored (rows (snd (post_waitlist cfg env sub w))) /\
          email stored = sub_email sub /\
          created_at stored = now_created env /\
          response_position (fst (post_waitlist cfg env sub w)) =
            Some (JInt
                    (Z.of_nat
                       (List.length
                          (filter (fun r => created_at r <=? created_at stored)
                             (rows (snd (post_waitlist cfg env sub w)))))))) /\
    (forall reqs w,
        Forall in_sequence reqs ->
        Forall (fun q : request => storable (snd q)) reqs ->
        NoDup (map request_email reqs) ->
        StronglySorted Z.lt (map request_created_at reqs) ->
        Forall (fun q => email_taken (request_email q) (rows w) = false) reqs ->
        Forall (fun q => Forall (fun r => created_at r < request_created_at q)
                           (rows w)) reqs ->
        map response_position (fst (run_requests cfg reqs w)) =
        map (fun i => Some (JInt (Z.of_nat (List.length (rows w)) + Z.of_nat i)))
          (seq 1 (List.length reqs))) /\
    (forall reqs next log,
        Forall in_sequence reqs ->
        Forall (fun q : request => storable (snd q)) reqs ->
        NoDup (map request_email reqs) ->
        StronglySorted Z.lt (map request_created_at reqs) ->
        map response_position
          (fst (run_requests cfg reqs (mkWorld [] next log))) =
        map (fun i => Some (JInt (Z.of_nat i))) (seq 1 (List.length reqs))).
Proof.
  intros cfg. split; [|split].
  - intros env sub w Hok.
    destruct (created_position_is_count cfg env sub w Hok)
      as (stored & Hin & He & Hat & Hpos).
    exists stored. unfold count_up_to in Hpos. auto.
  - intros reqs w Hseq Hsto Hnd Hsort Hnew Hlate.
    apply run_requests_positions; assumption.
  - intros reqs next log Hseq Hsto Hnd Hsort.
    rewrite (run_requests_positions cfg reqs (mkWorld [] next log));
      try assumption.
    + reflexivity.
    + apply Forall_forall. intros q _. reflexivity.
    + apply Forall_forall. intros q _. constructor.
Qed.

Lemma position_is_rank_witness :
  (exists stored,
      In stored
        (rows (snd (post_waitlist sample_cfg env_auth_failure
                      (parse_submission "b@x.com" None None)
                      (mkWorld [sample_row; late_row] 3 [])))) /\
      email stored = "b@x.com" /\
      response_position
        (fst (post_waitlist sample_cfg env_auth_failure
                (parse_submission "b@x.com" None None)
                (mkWorld [sample_row; late_row] 3 []))) =
      Some (JInt
              (Z.of_nat
                 (List.length
                    (filter (fun r => created_at r <=? created_at stored)
                       (rows (snd (post_waitlist sample_cfg env_auth_failure
                                     (parse_submission "b@x.com" None None)
                                     (mkWorld [sample_row; late_row] 3 []))))))))) /\
  map response_position (fst (run_requests sample_cfg three_requests empty_world))
  = [Some (JInt 1); Some (JInt 2); Some (JInt 3)].
Proof.
  destruct (position_is_rank_by_creation_time sample_cfg) as (A & _ & B).
  split.
  - destruct (A env_auth_failure (parse_submission "b@x.com" None None)
                (mkWorld [sample_row; late_row] 3 []) eq_refl)
      as (stored & Hin & He & _ & Hpos).
    exists stored. auto.
  - apply (B three_requests 1 []).
    + repeat constructor.
    + repeat constructor.
    + repeat constructor; simpl; intuition discriminate.
    + repeat constructor.
Defined.

(** A row stored with a later [created_at] is not counted: the entry
    created beside [sample_row] and [late_row] is the third row of the
    table and is reported the position 2. *)
Example position_skips_younger_rows :
  response_position
    (fst (post_waitlist sample_cfg env_auth_failure
            (parse_submission "b@x.com" None None)
            (mkWorld [sample_row; late_row] 3 []))) = Some (JInt 2) /\
  List.length
    (rows (snd (post_waitlist sample_cfg env_auth_failure
                  (parse_submission "b@x.com" None None)
                  (mkWorld [sample_row; late_row] 3 [])))) = 3%nat.
Proof. split; reflexivity. Qed.

(** ** Email identity *)

Lemma is_space_lower_char c :
  PyStr.is_space (PyStr.lower_char c) = PyStr.is_space c.
Proof. destruct c as [[] [] [] [] [] [] [] []]; reflexivity. Qed.

Lemma lstrip_lower s :
  PyStr.lstrip_by PyStr.is_space (PyStr.lower s) =
  PyStr.lower (PyStr.lstrip_by PyStr.is_space s).
Proof.
  unfold PyStr.lower. induction s as [|c s IH]; [reflexivity|].
  cbn [PyStr.map_chars PyStr.lstrip_by]. rewrite is_space_lower_char.
  destruct (PyStr.is_space c); [exact IH | reflexivity].
Qed.

Lemma rstrip_lower s :
  PyStr.rstrip_by PyStr.is_space (PyStr.lower s) =
  PyStr.lower (PyStr.rstrip_by PyStr.is_space s).
Proof.
  unfold PyStr.lower. induction s as [|c s IH]; [reflexivity|].
  cbn [PyStr.map_chars PyStr.rstrip_by]. rewrite IH, is_space_lower_char.
  destruct (PyStr.rstrip_by PyStr.is_space s); cbn [PyStr.map_chars].
  - destruct (PyStr.is_space c); reflexivity.
  - reflexivity.
Qed.

(** Trimming and lower-casing commute. *)
Lemma strip_lower s : PyStr.strip (PyStr.lower s) = PyStr.lower (PyStr.strip s).
Proof.
  unfold PyStr.strip, PyStr.strip_by. rewrite rstrip_lower, lstrip_lower.
  reflexivity.
Qed.

Lemma rstrip_lstrip p s :
  PyStr.rstrip_by p (PyStr.lstrip_by p s) =
  PyStr.lstrip_by p (PyStr.rstrip_by p s).
Proof.
  induction s as [|c s IH]; [reflexivity|].
  cbn [PyStr.lstrip_by]. destruct (p c) eqn:E.
  - rewrite IH. cbn [PyStr.rstrip_by].
    destruct (PyStr.rstrip_by p s) as [|d r].
    + rewrite E. reflexivity.
    + cbn [PyStr.lstrip_by]. rewrite E. reflexivity.
  - cbn [PyStr.rstrip_by].
    destruct (PyStr.rstrip_by p s) as [|d r].
    + rewrite E. cbn [PyStr.lstrip_by]. rewrite E. reflexivity.
    + cbn [PyStr.lstrip_by]. rewrite E. reflexivity.
Qed.

Lemma lstrip_all_space l x :
  all_space l = true ->
  PyStr.lstrip_by PyStr.is_space (l ++ x) = PyStr.lstrip_by PyStr.is_space x.
Proof.
  induction l as [|c l IH]; cbn [all_space append PyStr.lstrip_by];
    [reflexivity|].
  intros H. apply andb_prop in H. destruct H as [Hc Hl].
  rewrite Hc. apply IH. exact Hl.
Qed.

Lemma rstrip_all_space r :
  all_space r = true -> PyStr.rstrip_by PyStr.is_space r = EmptyString.
Proof.
  induction r as [|c r IH]; cbn [all_space PyStr.rstrip_by]; [reflexivity|].
  intros H. apply andb_prop in H. destruct H as [Hc Hr].
  rewrite (IH Hr), Hc. reflexivity.
Qed.

Lemma rstrip_app_all_space x r :
  all_space r = true ->
  PyStr.rstrip_by PyStr.is_space (x ++ r) = PyStr.rstrip_by PyStr.is_space x.
Proof.
  intros Hr. induction x as [|c x IH]; cbn [append].
  - apply rstrip_all_space. exact Hr.
  - cbn [PyStr.rstrip_by]. rewrite IH. reflexivity.
Qed.

Lemma append_assoc (x y z : string) : (x ++ y) ++ z = x ++ (y ++ z).
Proof.
  induction x as [|c x IH]; cbn [append]; [reflexivity|].
  rewrite IH. reflexivity.
Qed.

(** Trimming removes the padding. *)
Lemma strip_padded s core : padded s core -> PyStr.strip s = PyStr.strip core.
Proof.
  intros (l & r & -> & Hl & Hr). unfold PyStr.strip, PyStr.strip_by.
  rewrite <- append_assoc, (rstrip_app_all_space _ r Hr).
  rewrite <- !rstrip_lstrip, (lstrip_all_space l core Hl). reflexivity.
Qed.

Lemma is_ascii_app x y :
  PyStr.is_ascii (x ++ y) = PyStr.is_ascii x && PyStr.is_ascii y.
Proof.
  induction x as [|c x IH]; cbn [append PyStr.is_ascii]; [reflexivity|].
  rewrite IH, andb_assoc. reflexivity.
Qed.

Lemma is_ascii_padded s core :
  padded s core -> PyStr.is_ascii s = true -> PyStr.is_ascii core = true.
Proof.
  intros (l & r & -> & _ & _) H. rewrite !is_ascii_app in H.
  apply andb_prop in H. destruct H as [_ H].
  apply andb_prop in H. tauto.
Qed.

(** Lower-casing maps a capital to its small letter and leaves the
    small letter alone. *)
Lemma is_capital_of_lower C c :
  is_capital_of C c = true ->
  PyStr.lower_char C = c /\ PyStr.lower_char c = c.
Proof.
  unfold is_capital_of. intros H.
  apply andb_prop in H. destruct H as [H Hc].
  apply Nat.eqb_eq in Hc.
  rewrite <- (ascii_nat_embedding c), Hc. clear Hc c.
  destruct C as [[] [] [] [] [] [] [] []];
    first [discriminate H | split; reflexivity].
Qed.

Lemma case_variant_lower a b :
  case_variant a b ->
  PyStr.is_ascii a = true -> PyStr.is_ascii b = true ->
  PyStr.lower a = PyStr.lower b.
Proof.
  unfold PyStr.lower.
  induction 1 as [|c a b _ IH|C c a b Hc _ IH|C c a b Hc _ IH|a b _ _|a b _ _];
    cbn [PyStr.is_ascii PyStr.map_chars]; intros Ha Hb.
  - reflexivity.
  - apply andb_prop in Ha, Hb. rewrite IH by tauto. reflexivity.
  - apply andb_prop in Ha, Hb. rewrite IH by tauto.
    destruct (is_capital_of_lower C c Hc) as [-> ->]. reflexivity.
  - apply andb_prop in Ha, Hb. rewrite IH by tauto.
    destruct (is_capital_of_lower C c Hc) as [-> ->]. reflexivity.
  - discriminate Ha.
  - discriminate Hb.
Qed.

Lemma same_address_normalized a b :
  PyStr.is_ascii a = true -> PyStr.is_ascii b = true ->
  same_address a b -> email_must_be_lowercase a = email_must_be_lowercase b.
Proof.
  intros Ha Hb (ca & cb & Hpa & Hpb & Hcv).
  unfold email_must_be_lowercase.
  rewrite !strip_lower, (strip_padded a ca Hpa), (strip_padded b cb Hpb).
  rewrite <- !strip_lower.
  rewrite (case_variant_lower ca cb Hcv
             (is_ascii_padded a ca Hpa Ha) (is_ascii_padded b cb Hpb Hb)).
  reflexivity.
Qed.

Ltac case_variant_step :=
  first [ apply cv_nil
        | apply cv_same
        | apply cv_capital_left; [reflexivity|]
        | apply cv_capital_right; [reflexivity|]
        | apply (cv_dotless_left _ _)
        | apply (cv_dotless_right _ _) ].

(** C6, as stated, fails.  The address written with the small dotless i
    and the address written with the capital I differ only in the case
    of that letter.  Lower-casing leaves the first as it is and maps the
    second to the ASCII letter i, so the two normalized emails differ:
    after a signup with the first, a submission of the second is not a
    duplicate, and the table holds both. *)
Lemma dotless_i_and_capital_i_are_both_stored :
  same_address (dotless_i ++ "@x.com") "I@X.COM" /\
  email_must_be_lowercase (dotless_i ++ "@x.com") = dotless_i ++ "@x.com" /\
  email_must_be_lowercase "I@X.COM" = "i@x.com" /\
  email_must_be_lowercase (dotless_i ++ "@x.com") <>
    email_must_be_lowercase "I@X.COM" /\
  let w1 :=
    snd (post_waitlist sample_cfg env_ok
           (parse_submission (dotless_i ++ "@x.com") None None) empty_world) in
  let (second, w2) :=
    post_waitlist sample_cfg env_ok
      (parse_submission "I@X.COM" None None) w1 in
  json_get "success" (http_body second) = Some (JBool true) /\
  json_get "error_code" (http_body second) = Some JNull /\
  map email (rows w2) = [dotless_i ++ "@x.com"; "i@x.com"].
Proof.
  split.
  { exists (dotless_i ++ "@x.com"), "I@X.COM".
    split; [exists EmptyString, EmptyString; repeat split|].
    split; [exists EmptyString, EmptyString; repeat split|].
    apply (cv_dotless_left "@x.com" "@X.COM").
    repeat case_variant_step. }
  split; [reflexivity|]. split; [reflexivity|].
  split; [vm_compute; discriminate|].
  vm_compute. repeat split.
Qed.

(** C6, amended.  ASCII strings that differ only in letter case or in
    leading and trailing whitespace are the same email to the service:
    the validator maps them to one normalized string when the submission
    is built, and after a signup with one of them a submission with the
    other is answered as a duplicate, without a write. *)
Theorem same_ascii_address_is_a_duplicate :
  forall a b,
    PyStr.is_ascii a = true ->
    PyStr.is_ascii b = true ->
    same_address a b ->
    email_must_be_lowercase a = email_must_be_lowercase b /\
    forall cfg env1 env2 name1 ref1 name2 ref2 w,
      unique_emails (rows w) ->
      db_reachable env1 -> sequential env1 ->
      storable (parse_submission a name1 ref1) ->
      check_connect env2 = None ->
      let w1 := snd (post_waitlist cfg env1 (parse_submission a name1 ref1) w) in
      let (second, w2) :=
        post_waitlist cfg env2 (parse_submission b name2 ref2) w1 in
      json_get "success" (http_body second) = Some (JBool false) /\
      json_get "error_code" (http_body second) =
        Some (JStr "EMAIL_ALREADY_EXISTS") /\
      rows w2 = rows w1.
Proof.
  intros a b Ha Hb Hab.
  pose proof (same_address_normalized a b Ha Hb Hab) as Hnorm.
  split; [exact Hnorm|].
  intros cfg env1 env2 name1 ref1 name2 ref2 w Hu Hr Hs Hst Hc w1.
  destruct (post_waitlist_stores_once cfg env1 (parse_submission a name1 ref1)
              w Hu Hr Hs Hst) as [_ [r Hf]].
  fold w1 in Hf. cbn [parse_submission sub_email] in Hf. rewrite Hnorm in Hf.
  rewrite (post_waitlist_existing cfg env2 (parse_submission b name2 ref2)
             w1 r Hc Hf).
  repeat split; reflexivity.
Qed.

Lemma same_ascii_address_witness :
  email_must_be_lowercase "a@x.com" = email_must_be_lowercase " A@X.com " /\
  json_get "error_code"
    (http_body
       (fst (post_waitlist sample_cfg env_auth_failure
               (parse_submission " A@X.com " None None)
               (snd (post_waitlist sample_cfg env_ok
                       (parse_submission "a@x.com" None None) empty_world)))))
  = Some (JStr "EMAIL_ALREADY_EXISTS").
Proof.
  assert (same_address "a@x.com" " A@X.com ") as H.
  { exists "a@x.com", "A@X.com".
    split; [exists EmptyString, EmptyString; repeat split|].
    split; [exists " ", " "; repeat split|].
    repeat case_variant_step. }
  destruct (same_ascii_address_is_a_duplicate "a@x.com" " A@X.com "
              eq_refl eq_refl H) as [Hn Hd].
  split; [exact Hn|].
  specialize (Hd sample_cfg env_ok env_auth_failure None None None None
                empty_world (NoDup_nil _)
                (conj eq_refl (conj eq_refl eq_refl)) eq_refl
                (conj eq_refl eq_refl) eq_refl).
  cbv zeta in Hd.
  destruct (post_waitlist sample_cfg env_auth_failure
              (parse_submission " A@X.com " None None)
              (snd (post_waitlist sample_cfg env_ok
                      (parse_submission "a@x.com" None None) empty_world)))
    as [second w2].
  exact (proj1 (proj2 Hd)).
Defined.

(** ** The health check *)

(** C7. The health check returns a report on every input and writes
    nothing.  The database part says [unhealthy], with the text of the
    exception, exactly when the count could not be read; the Brevo part
    says [connected] exactly when the account probe was answered, and
    otherwise carries the text of the probe's exception; the composite
    status is [degraded] exactly when the database part is [unhealthy]
    or the Brevo part is not connected, and [healthy] otherwise.  In
    particular an unreachable store gives [status=degraded] with the
    database part [unhealthy]. *)
Theorem health_check_reports_instead_of_raising :
  forall env w,
  exists h,
    health_check env w =
      (Ok h,
       mkWorld (rows w) (serial w)
         (trace w ++ (if store_reachable env then [SqlCount] else []) ++
          [BrevoGetAccount])) /\
    database_status h =
      Some (JStr (if store_reachable env then "healthy" else "unhealthy")) /\
    (forall exc,
        probe_connect env = Some exc ->
        json_path ["services"; "database"] h =
        Some (JObj [("status", JStr "unhealthy");
                    ("error", JStr (str_exn (on_db_exception exc)))])) /\
    sync_connected h = Some (JBool (sync_reachable env)) /\
    (forall e,
        account_reply env = Raise e ->
        json_path ["services"; "brevo"] h =
        Some (JObj [("connected", JBool false); ("error", JStr (str_exn e))])) /\
    health_status h =
      Some (JStr (if store_reachable env && sync_reachable env
                  then "healthy" else "degraded")) /\
    (health_status h = Some (JStr "degraded") <->
     database_status h = Some (JStr "unhealthy") \/
     sync_connected h = Some (JBool false)) /\
    (store_reachable env = false ->
     health_status h = Some (JStr "degraded") /\
     database_status h = Some (JStr "unhealthy")).
Proof.
  intros env w.
  unfold health_check, store_reachable, sync_reachable, bind.
  unfold BrevoService.test_connection.
  unfold try_except, bind, emit, lift, ret.
  destruct (probe_connect env) as [exc|].
  - rewrite db_get_waitlist_count_unreachable.
    destruct (account_reply env) as [acct|e]; cbn [rows serial trace];
      [|destruct (is_ApiException e)];
      (eexists; split; [reflexivity|]);
      (split; [reflexivity|]);
      (split; [intros x Hx; injection Hx as <-; reflexivity|]);
      (split; [reflexivity|]);
      (split; [intros x Hx; first [discriminate Hx
                                  | injection Hx as <-; reflexivity]|]);
      (split; [reflexivity|]);
      (split; [split; [intros _; left; reflexivity | reflexivity]|]);
      (intros _; split; reflexivity).
  - rewrite db_get_waitlist_count_connected.
    destruct (account_reply env) as [acct|e]; cbn [rows serial trace];
      [|destruct (is_ApiException e)];
      (eexists; split; [world_eq|]);
      (split; [reflexivity|]);
      (split; [intros x Hx; discriminate Hx|]);
      (split; [reflexivity|]);
      (split; [intros x Hx; first [discriminate Hx
                                  | injection Hx as <-; reflexivity]|]);
      (split; [reflexivity|]);
      (split; [|intros Hx; discriminate Hx]).
    + split; [intros Hx; discriminate Hx | intros [Hx|Hx]; discriminate Hx].
    + split; [intros _; right; reflexivity | reflexivity].
    + split; [intros _; right; reflexivity | reflexivity].
Qed.

(** The report of a probe that cannot reach the database. *)
Example health_when_store_is_down :
  fst (health_check probe_db_down empty_world) =
  Ok (JObj [("status", JStr "degraded");
            ("timestamp", JIso 500);
            ("services",
             JObj [("database",
                    JObj [("status", JStr "unhealthy");
                          ("error", JStr "500: Database operation failed")]);
                   ("brevo",
                    JObj [("connected", JBool true);
                          ("account_email", JStr "ops@example.com");
                          ("company_name", JNull);
                          ("plan_type", JStr "free")])])]).
Proof. reflexivity. Qed.

(** The report of a probe whose key Brevo refuses: the Brevo part
    carries the printed exception, with its status, reason, headers and
    body. *)
Example health_when_key_is_refused :
  fst (health_check probe_unauthorized empty_world) =
  Ok (JObj [("status", JStr "degraded");
            ("timestamp", JIso 500);
            ("services",
             JObj [("database",
                    JObj [("status", JStr "healthy");
                          ("waitlist_count", JInt 0)]);
                   ("brevo",
                    JObj [("connected", JBool false);
                          ("error",
                           JStr ("(401)" ++ nl ++ "Reason: Unauthorized" ++ nl ++
                                 "HTTP response headers: HTTPHeaderDict({'Content-Type': 'application/json'})" ++ nl ++
                                 "HTTP response body: {'code':'unauthorized'}" ++ nl))])])]).
Proof. reflexivity. Qed.

(** ** What the client sees of internal errors *)

Lemma on_db_exception_text e e' :
  same_but_text e e' -> on_db_exception e = on_db_exception e'.
Proof. destruct 1; reflexivity. Qed.

Lemma condition_of_exn_text e e' :
  same_but_text e e' -> condition_of_exn e = condition_of_exn e'.
Proof. destruct 1; reflexivity. Qed.

Lemma condition_met_text now nm ref position (reply reply' : res Z) :
  same_reply reply reply' ->
  condition_met now nm ref position reply =
  condition_met now nm ref position reply'.
Proof.
  intros H. unfold condition_met.
  destruct (BrevoService.contact_attributes now nm ref position); [|reflexivity].
  destruct H as [n|e e' He]; [reflexivity|].
  apply condition_of_exn_text. exact He.
Qed.

Lemma serve_fst {A} code (to_json : A -> json) (m m' : M A) w w' :
  fst (m w) = fst (m' w') ->
  fst (serve code to_json m w) = fst (serve code to_json m' w').
Proof.
  unfold serve. destruct (m w) as [r1 w1], (m' w') as [r2 w2]. simpl.
  intros ->. destruct r2 as [a|[]]; reflexivity.
Qed.

Lemma serve_has_success_flag code (m : M WaitlistResponse) w :
  exists b,
    json_get "success" (http_body (fst (serve code WaitlistResponse_json m w)))
    = Some (JBool b).
Proof.
  unfold serve. destruct (m w) as [[a|[]] w']; eexists; reflexivity.
Qed.

(** The handler's result does not depend on exception text. *)
Lemma add_to_waitlist_text cfg env env' sub w :
  same_run env env' ->
  fst (add_to_waitlist cfg env sub w) = fst (add_to_waitlist cfg env' sub w).
Proof.
  intros (Hc & Hn & Hi & Hrace & Hreply & Ht1 & Ht2 & Ht3).
  inversion Hc as [Hc1 Hc2|e1 e1' He1 Hc1 Hc2]; symmetry in Hc1, Hc2.
  2:{ rewrite (add_to_waitlist_check_unreachable cfg env sub w e1 Hc1).
      rewrite (add_to_waitlist_check_unreachable cfg env' sub w e1' Hc2).
      cbn [fst]. f_equal. apply on_db_exception_text. exact He1. }
  destruct (email_taken (sub_email sub) (rows w)) eqn:Hf.
  { destruct (proj1 (email_taken_find _ _) Hf) as [r Hr].
    rewrite (add_to_waitlist_existing cfg env sub w r Hc1 Hr).
    rewrite (add_to_waitlist_existing cfg env' sub w r Hc2 Hr).
    reflexivity. }
  inversion Hn as [Hn1 Hn2|e2 e2' He2 Hn1 Hn2]; symmetry in Hn1, Hn2.
  2:{ rewrite (add_to_waitlist_count_unreachable cfg env sub w e2 Hc1 Hf Hn1).
      rewrite (add_to_waitlist_count_unreachable cfg env' sub w e2' Hc2 Hf Hn2).
      f_equal. apply on_db_exception_text. exact He2. }
  inversion Hi as [Hi1 Hi2|e3 e3' He3 Hi1 Hi2]; symmetry in Hi1, Hi2.
  2:{ rewrite (add_to_waitlist_insert_unreachable cfg env sub w e3 Hc1 Hf Hn1 Hi1).
      rewrite (add_to_waitlist_insert_unreachable cfg env' sub w e3' Hc2 Hf Hn2 Hi2).
      f_equal. apply on_db_exception_text. exact He3. }
  set (position0 :=
         Z.of_nat (List.length
           (fst (raced (racing env) (rows w) (serial w)))) + 1).
  destruct (add_contact_to_list_returns cfg (create_contact_reply env)
              (now_signup env) (sub_email sub) (sub_name sub)
              (sub_referral_source sub) position0) as [r Hr].
  destruct (add_contact_to_list_returns cfg (create_contact_reply env')
              (now_signup env) (sub_email sub) (sub_name sub)
              (sub_referral_source sub) position0) as [r' Hr'].
  assert (BrevoService.sync_status r = BrevoService.sync_status r' /\
          BrevoService.contact_id r = BrevoService.contact_id r') as [Hst Hid].
  { destruct (add_contact_to_list_classifies cfg (create_contact_reply env)
                (now_signup env) (sub_email sub) (sub_name sub)
                (sub_referral_source sub) position0 w) as (x & Hx & Hcl & Hci).
    destruct (add_contact_to_list_classifies cfg (create_contact_reply env')
                (now_signup env) (sub_email sub) (sub_name sub)
                (sub_referral_source sub) position0 w) as (x' & Hx' & Hcl' & Hci').
    rewrite Hr in Hx. injection Hx as <-.
    rewrite Hr' in Hx'. injection Hx' as <-.
    rewrite (condition_met_text _ _ _ _ _ _ Hreply) in Hcl, Hci.
    rewrite <- Hcl' in Hcl. rewrite <- Hci' in Hci.
    injection Hcl as H1 _. auto. }
  rewrite (add_to_waitlist_absent cfg env sub w r Hc1 Hn1 Hi1 Hf Hr).
  pose proof (add_to_waitlist_absent cfg env' sub w r' Hc2 Hn2 Hi2 Hf) as H'.
  rewrite <- Hrace, <- Ht1, <- Ht2, <- Ht3 in H'.
  rewrite (H' Hr'), <- Hst, <- Hid.
  destruct (has_NUL (sub_name sub) || has_NUL (sub_referral_source sub));
    [reflexivity|].
  destruct (email_taken (sub_email sub)
              (fst (raced (racing env) (rows w) (serial w)))); reflexivity.
Qed.

(** C8, as stated, fails.  A GET request for the root path is handed to
    [serve_frontend].  Where the frontend is not built the answer is a
    JSON object with the single member [message]; where it is built the
    answer is a file.  Neither carries a [success] flag. *)
Lemma frontend_answer_has_no_success_flag :
  dispatch (app_routes false) GET "/" = Handled (ServeFrontend EmptyString) /\
  frontend_route fs_empty EmptyString =
    SendJson
      (mkHttp 200
         (JObj [("message", JStr "Frontend not built. Run 'npm run build'")])) /\
  (forall r,
      frontend_route fs_empty EmptyString = SendJson r ->
      json_get "success" (http_body r) = None) /\
  frontend_route fs_built EmptyString = SendFile "out/index.html".
Proof.
  split; [reflexivity|]. split; [reflexivity|]. split; [|reflexivity].
  intros r H. injection H as <-. reflexivity.
Qed.

(** C8, amended.  A request [POST /api/waitlist] is handed to
    [add_to_waitlist]; every answer to a submission that passed
    validation is a JSON object with a [success] member, and it is the
    same for two runs that differ only in the text of internal
    exceptions (the driver's message of a database error, the reason
    phrase and headers of a remote API error, the message of any other
    exception). *)
Theorem signup_response_hides_exception_text :
  forall assets_exist cfg env env' sub w,
    same_run env env' ->
    dispatch (app_routes assets_exist) POST "/api/waitlist" =
      Handled AddToWaitlist /\
    fst (post_waitlist cfg env sub w) = fst (post_waitlist cfg env' sub w) /\
    exists b,
      json_get "success" (http_body (fst (post_waitlist cfg env sub w))) =
      Some (JBool b).
Proof.
  intros assets_exist cfg env env' sub w H. split; [|split].
  - destruct assets_exist; reflexivity.
  - unfold post_waitlist. apply serve_fst.
    apply add_to_waitlist_text. exact H.
  - apply serve_has_success_flag.
Qed.

Lemma signup_hides_exception_text_witness :
  fst (post_waitlist sample_cfg env_db_down
         (parse_submission "a@x.com" None None) empty_world) =
  fst (post_waitlist sample_cfg env_db_timeout
         (parse_submission "a@x.com" None None) empty_world) /\
  fst (post_waitlist sample_cfg env_db_down
         (parse_submission "a@x.com" None None) empty_world) =
  mkHttp 500
    (JObj [("success", JBool false);
           ("error", JStr "Database operation failed");
           ("status_code", JInt 500)]).
Proof.
  destruct (signup_response_hides_exception_text true sample_cfg env_db_down
              env_db_timeout (parse_submission "a@x.com" None None) empty_world)
    as (_ & A & _).
  - repeat split; try constructor; constructor.
  - split; [exact A | reflexivity].
Defined.

(** ** Startup *)

Lemma validate_valid cfg :
  valid (fst (validate cfg)) =
  opt_truthy (DATABASE_URL cfg) && PyStr.truthy (BREVO_API_KEY cfg) &&
  negb (BREVO_WAITLIST_ID cfg =? 0).
Proof.
  unfold validate.
  destruct (opt_truthy (DATABASE_URL cfg)), (PyStr.truthy (BREVO_API_KEY cfg)),
    (BREVO_WAITLIST_ID cfg =? 0); reflexivity.
Qed.

Lemma startup_event_invalid cfg env w :
  valid (fst (validate cfg)) = false ->
  startup_event cfg env w =
  (Raise (RuntimeError "Configuration validation failed"), w).
Proof. intros H. unfold startup_event. rewrite H. reflexivity. Qed.

Lemma startup_event_valid cfg env w :
  valid (fst (validate cfg)) = true ->
  exists report w', startup_event cfg env w = (Ok report, w').
Proof.
  intros H. unfold startup_event. rewrite H. cbn [negb].
  unfold bind, initialize_schema, try_except, get_db_connection, ret.
  destruct (test_connection_returns (account_reply env)) as [c Hc].
  destruct (probe_connect env); rewrite Hc; eexists; eexists; reflexivity.
Qed.

(** C9, as stated, fails.  With the database, the key and the list
    configured and no origin in the environment, startup completes, and
    validation has neither an error nor a warning; a configuration with
    an empty origin list passes validation with a warning only. *)
Lemma startup_without_origin_completes :
  environ_without_origin "FRONTEND_URL" = None /\
  fst (boot environ_without_origin probe_ok empty_world) =
    Ok (mkReport true true) /\
  (exists cfg,
      load_Config environ_without_origin = Ok cfg /\
      fst (validate cfg) = mkValidation true [] []) /\
  fst (validate (mkConfig (Some "postgresql://db/waitlist") "xkeysib-0123" 7 []))
    = mkValidation true [] ["No CORS origins configured"] /\
  fst (startup_event
         (mkConfig (Some "postgresql://db/waitlist") "xkeysib-0123" 7 [])
         probe_ok empty_world) = Ok (mkReport true true).
Proof.
  split; [reflexivity|]. split; [reflexivity|].
  split; [eexists; split; reflexivity|]. split; reflexivity.
Qed.

(** C9, amended.  Startup aborts with an error when the database
    connection string, the API key or the list identifier is absent from
    the environment.  The origin of the frontend is not required: whether
    it is set has no influence on the outcome of startup. *)
Theorem startup_requires_database_key_and_list :
  forall os_environ env w,
    (missing_required os_environ ->
     exists e, fst (boot os_environ env w) = Raise e) /\
    (forall os_environ',
        (forall k, k <> "FRONTEND_URL" -> os_environ' k = os_environ k) ->
        fst (boot os_environ' env w) = fst (boot os_environ env w)).
Proof.
  intros os_environ env w. split.
  - intros Hmiss. unfold boot, bind, lift.
    destruct (load_Config os_environ) as [cfg|e] eqn:Hload;
      [|eexists; reflexivity].
    rewrite startup_event_invalid; [eexists; reflexivity|].
    rewrite validate_valid. unfold load_Config, getenv in Hload.
    destruct Hmiss as [H|[H|H]]; rewrite H in Hload.
    + destruct (PyStr.to_Z _); [|discriminate].
      injection Hload as <-. reflexivity.
    + destruct (PyStr.to_Z _); [|discriminate].
      injection Hload as <-. cbn [BREVO_API_KEY DATABASE_URL].
      apply andb_false_intro1. apply andb_false_intro2. reflexivity.
    + injection Hload as <-. cbn [BREVO_WAITLIST_ID].
      apply andb_false_intro2. reflexivity.
  - intros os_environ' Hagree. unfold boot, bind, lift, load_Config, getenv.
    rewrite !(Hagree "DATABASE_URL"), !(Hagree "BREVO_API_KEY"),
      !(Hagree "BREVO_WAITLIST_ID") by discriminate.
    destruct (PyStr.to_Z _) as [n|]; [|reflexivity].
    match goal with
    | |- fst (startup_event ?c1 env w) = fst (startup_event ?c2 env w) =>
        assert (valid (fst (validate c1)) = valid (fst (validate c2))) as Hv
          by (rewrite !validate_valid; reflexivity);
        unfold startup_event; rewrite Hv
    end.
    reflexivity.
Qed.

Lemma startup_requires_key_witness :
  (exists e, fst (boot environ_without_key probe_ok empty_world) = Raise e) /\
  fst (boot (environ_of [("FRONTEND_URL", "https://waitlist.example.com");
                         ("DATABASE_URL", "postgresql://db/waitlist");
                         ("BREVO_API_KEY", "xkeysib-0123");
                         ("BREVO_WAITLIST_ID", "7")])
         probe_ok empty_world) =
  fst (boot environ_without_origin probe_ok empty_world).
Proof.
  split.
  - apply (proj1 (startup_requires_database_key_and_list environ_without_key
                    probe_ok empty_world)).
    right. left. reflexivity.
  - apply (proj2 (startup_requires_database_key_and_list
                    environ_without_origin probe_ok empty_world)).
    intros k Hk. unfold environ_without_origin, environ_of.
    cbn [assoc]. destruct (String.eqb_spec k "FRONTEND_URL") as [E|E].
    + contradiction.
    + reflexivity.
Defined.

(* ================================================================== *)
(** * Further properties *)
(* ================================================================== *)

(** ** Every outcome of a signup request *)

Lemma add_to_waitlist_count_unreachable_world cfg env sub w exc :
  check_connect env = None ->
  email_taken (sub_email sub) (rows w) = false ->
  count_connect env = Some exc ->
  add_to_waitlist cfg env sub w =
  (Raise (on_db_exception exc),
   mkWorld (table_after_race env w)
     (snd (raced (racing env) (rows w) (serial w)))
     (trace w ++ [SqlSelectByEmail (sub_email sub)])).
Proof.
  intros Hc Hf Hn. unfold add_to_waitlist, try_except, bind.
  rewrite Hc, check_email_exists_connected.
  rewrite (email_taken_false_find _ _ Hf).
  cbn [option_map]. unfold interleave.
  rewrite Hn, db_get_waitlist_count_unreachable, on_db_exception_http.
  reflexivity.
Qed.

Lemma add_to_waitlist_insert_unreachable_world cfg env sub w exc :
  check_connect env = None ->
  email_taken (sub_email sub) (rows w) = false ->
  count_connect env = None ->
  insert_connect env = Some exc ->
  add_to_waitlist cfg env sub w =
  (Raise (on_db_exception exc),
   mkWorld (table_after_race env w)
     (snd (raced (racing env) (rows w) (serial w)))
     (trace w ++ [SqlSelectByEmail (sub_email sub); SqlCount] ++
      sync_events cfg (now_signup env) (sub_email sub) (sub_name sub)
        (sub_referral_source sub)
        (Z.of_nat (List.length (table_after_race env w)) + 1))).
Proof.
  intros Hc Hf Hn Hi. unfold add_to_waitlist, try_except, bind.
  rewrite Hc, check_email_exists_connected.
  rewrite (email_taken_false_find _ _ Hf).
  cbn [option_map]. unfold interleave.
  rewrite Hn, db_get_waitlist_count_connected. cbn [rows serial trace].
  destruct (add_contact_to_list_returns cfg (create_contact_reply env)
              (now_signup env) (sub_email sub) (sub_name sub)
              (sub_referral_source sub)
              (Z.of_nat (List.length (table_after_race env w)) + 1)) as [r Hr].
  unfold table_after_race in *. rewrite Hr. cbn [rows serial trace].
  rewrite Hi, add_waitlist_entry_unreachable, on_db_exception_http.
  unfold raise. f_equal. f_equal. rewrite <- !app_assoc. reflexivity.
Qed.

Lemma serve_db_exception {A} code (to_json : A -> json) (m : M A) w exc w' :
  m w = (Raise (on_db_exception exc), w') ->
  serve code to_json m w = (database_error_response exc, w').
Proof.
  intros H. unfold serve, database_error_response. rewrite H.
  unfold on_db_exception. destruct (is_psycopg2_Error exc); reflexivity.
Qed.

(** The ways a signup request ends: answered as a database failure
    (the database unreachable, the insert refused by the driver or by
    the unique index) with the table as it was or as the racing inserts
    left it;
    answered as a duplicate with the table untouched; or answered as
    created with one row appended after the racing inserts. *)
Lemma post_waitlist_cases cfg env sub w :
  (exists exc t n tr,
      post_waitlist cfg env sub w =
        (database_error_response exc, mkWorld t n tr) /\
      (t = rows w \/ t = table_after_race env w)) \/
  (exists found,
      find (has_email (sub_email sub)) (rows w) = Some found /\
      post_waitlist cfg env sub w =
        (mkHttp HTTP_201_CREATED
           (WaitlistResponse_json
              (duplicate_response (sub_email sub) (created_at found))),
         mkWorld (rows w) (serial w)
           (trace w ++ [SqlSelectByEmail (sub_email sub)]))) \/
  (exists r n tr,
      email_taken (sub_email sub) (rows w) = false /\
      email_taken (sub_email sub) (table_after_race env w) = false /\
      (BrevoService.sync_status r, BrevoService.error_code r) =
        classification
          (condition_met (now_signup env) (sub_name sub)
             (sub_referral_source sub)
             (Z.of_nat (List.length (table_after_race env w)) + 1)
             (create_contact_reply env)) /\
      BrevoService.contact_id r =
        contact_id_of
          (condition_met (now_signup env) (sub_name sub)
             (sub_referral_source sub)
             (Z.of_nat (List.length (table_after_race env w)) + 1)
             (create_contact_reply env)) /\
      post_waitlist cfg env sub w =
        (mkHttp HTTP_201_CREATED
           (WaitlistResponse_json
              (created_response (stored_row env sub w r)
                 (count_up_to (now_created env)
                    (table_after_race env w ++ [stored_row env sub w r]))
                 (BrevoService.sync_status r))),
         mkWorld (table_after_race env w ++ [stored_row env sub w r]) n tr)).
Proof.
  unfold post_waitlist.
  destruct (check_connect env) as [exc|] eqn:Hc.
  { left. exists exc, (rows w), (serial w), (trace w). split; [|left; reflexivity].
    apply serve_db_exception. destruct w as [t n tr].
    apply add_to_waitlist_check_unreachable. exact Hc. }
  destruct (email_taken (sub_email sub) (rows w)) eqn:Hf.
  { right. left. destruct (proj1 (email_taken_find _ _) Hf) as [found Hfound].
    exists found. split; [exact Hfound|]. unfold serve.
    rewrite (add_to_waitlist_existing cfg env sub w found Hc Hfound).
    reflexivity. }
  destruct (count_connect env) as [exc|] eqn:Hn.
  { left. exists exc. do 3 eexists. split; [|right; reflexivity].
    apply serve_db_exception.
    apply add_to_waitlist_count_unreachable_world; assumption. }
  destruct (insert_connect env) as [exc|] eqn:Hi.
  { left. exists exc. do 3 eexists. split; [|right; reflexivity].
    apply serve_db_exception.
    apply add_to_waitlist_insert_unreachable_world; assumption. }
  set (position0 := Z.of_nat (List.length (table_after_race env w)) + 1).
  destruct (add_contact_to_list_returns cfg (create_contact_reply env)
              (now_signup env) (sub_email sub) (sub_name sub)
              (sub_referral_source sub) position0) as [r Hr].
  destruct (add_contact_to_list_classifies cfg (create_contact_reply env)
              (now_signup env) (sub_email sub) (sub_name sub)
              (sub_referral_source sub) position0 w)
    as (r' & Hrun & Hclass & Hid).
  rewrite Hr in Hrun. injection Hrun as <-.
  pose proof (add_to_waitlist_absent cfg env sub w r Hc Hn Hi Hf Hr) as Habs.
  fold (table_after_race env w) in Habs.
  destruct (has_NUL (sub_name sub) || has_NUL (sub_referral_source sub)).
  { left. exists (ValueError EmptyString). do 3 eexists.
    split; [|right; reflexivity].
    unfold serve. rewrite Habs. reflexivity. }
  destruct (email_taken (sub_email sub) (table_after_race env w)) eqn:Ht.
  - left. exists (Psycopg2Error IntegrityError EmptyString). do 3 eexists.
    split; [|right; reflexivity].
    unfold serve. rewrite Habs. reflexivity.
  - right. right. exists r. do 2 eexists.
    split; [reflexivity|]. split; [reflexivity|].
    split; [exact Hclass|]. split; [exact Hid|].
    unfold serve. rewrite Habs. reflexivity.
Qed.

(** X2. A signup request handled without interference writes one row
    or none: answered with [success=true] it has appended exactly one
    row, for the submitted email; answered with [success=false]
    (duplicate or failure of the database at any step) it has left the
    table as it was. *)
Theorem signup_writes_one_row_or_none :
  forall cfg env sub w,
    sequential env ->
    let (resp, w') := post_waitlist cfg env sub w in
    (response_success resp = Some (JBool true) /\
     exists stored,
       rows w' = (rows w ++ [stored])%list /\ email stored = sub_email sub) \/
    (response_success resp = Some (JBool false) /\ rows w' = rows w).
Proof.
  intros cfg env sub w Hs.
  assert (table_after_race env w = rows w) as Ht1.
  { unfold table_after_race. unfold sequential in Hs. rewrite Hs. reflexivity. }
  destruct (post_waitlist_cases cfg env sub w)
    as [(exc & t & n & tr & Hrun & Ht)
       |[(found & _ & Hrun)
        |(r & n & tr & _ & _ & _ & _ & Hrun)]];
    rewrite Hrun.
  - right. split.
    + unfold database_error_response. destruct (is_psycopg2_Error exc); reflexivity.
    + cbn [rows]. destruct Ht as [->| ->]; [reflexivity | exact Ht1].
  - right. split; reflexivity.
  - left. split; [reflexivity|]. eexists. cbn [rows]. rewrite Ht1.
    split; reflexivity.
Qed.

Lemma signup_writes_one_row_or_none_witness :
  let (resp, w') :=
    post_waitlist sample_cfg env_insert_down
      (parse_submission "b@x.com" None None) (mkWorld [sample_row] 2 []) in
  (response_success resp = Some (JBool true) /\
   exists stored,
     rows w' = [sample_row; stored] /\ email stored = "b@x.com") \/
  (response_success resp = Some (JBool false) /\ rows w' = [sample_row]).
Proof.
  exact (signup_writes_one_row_or_none sample_cfg env_insert_down
           (parse_submission "b@x.com" None None)
           (mkWorld [sample_row] 2 []) eq_refl).
Defined.

(** X4. The row behind a response with [success=true]: it carries the
    submitted email, name and referral source, the entry status
    [pending] and the clock reading of the insert; its sync status is
    [success] or [failed], never [pending]; [brevo_synced_at] is set
    exactly when the status is [success]; and a contact id is present
    only with [success]. *)
Theorem stored_row_records_the_sync_outcome :
  forall cfg env sub w,
    response_success (fst (post_waitlist cfg env sub w)) = Some (JBool true) ->
    exists stored,
      In stored (rows (snd (post_waitlist cfg env sub w))) /\
      email stored = sub_email sub /\
      name stored = sub_name sub /\
      referral_source stored = sub_referral_source sub /\
      status stored = PENDING /\
      created_at stored = now_created env /\
      ((brevo_sync_status stored = SUCCESS /\
        brevo_synced_at stored = Some (now_synced env)) \/
       (brevo_sync_status stored = FAILED /\
        brevo_synced_at stored = None /\
        brevo_contact_id stored = None)).
Proof.
  intros cfg env sub w Hok.
  destruct (post_waitlist_cases cfg env sub w)
    as [(exc & t & n & tr & Hrun & _)
       |[(found & _ & Hrun)
        |(r & n & tr & _ & _ & Hclass & Hid & Hrun)]];
    rewrite Hrun in *; cbn [fst snd rows] in *.
  - unfold database_error_response in Hok.
    destruct (is_psycopg2_Error exc); discriminate.
  - discriminate.
  - exists (stored_row env sub w r).
    split; [apply in_or_app; right; left; reflexivity|].
    unfold stored_row.
    cbn [row_of_values DatabaseService.signup_values email name referral_source
         status created_at brevo_sync_status brevo_synced_at brevo_contact_id
         v_email v_name v_referral_source v_status v_created_at
         v_brevo_sync_status v_brevo_synced_at v_brevo_contact_id].
    repeat (split; [reflexivity|]).
    rewrite Hid.
    destruct (condition_met _ _ _ _ _); cbn [classification] in Hclass;
      injection Hclass as -> _; cbn [BrevoSyncStatus_eqb contact_id_of];
      auto.
Qed.

Lemma stored_row_witness :
  exists stored,
    In stored
      (rows (snd (post_waitlist sample_cfg env_auth_failure
                    (parse_submission "b@x.com" (Some " Bo ") None)
                    empty_world))) /\
    name stored = Some "Bo" /\
    brevo_sync_status stored = FAILED /\
    brevo_synced_at stored = None.
Proof.
  destruct (stored_row_records_the_sync_outcome sample_cfg env_auth_failure
              (parse_submission "b@x.com" (Some " Bo ") None) empty_world
              eq_refl)
    as (stored & Hin & He & Hn & _ & _ & _ & Hsync).
  exists stored. split; [exact Hin|]. split; [exact Hn|].
  destruct Hin as [<-|[]]. split; reflexivity.
Defined.


(** ** Sync first, then the insert *)

(** X5. The contact goes to Brevo before the insert is attempted: when
    the database is lost at the insert, the remote call for the
    submitted email has been issued, no row is stored, and the client
    gets status 500. *)
Theorem contact_is_sent_before_a_failing_insert :
  forall cfg env raw_email raw_name raw_referral w exc,
    let sub := parse_submission raw_email raw_name raw_referral in
    check_connect env = None ->
    count_connect env = None ->
    insert_connect env = Some exc ->
    sequential env ->
    email_taken (sub_email sub) (rows w) = false ->
    exists contact,
      cc_email contact = sub_email sub /\
      post_waitlist cfg env sub w =
      (database_error_response exc,
       mkWorld (rows w) (serial w)
         (trace w ++ [SqlSelectByEmail (sub_email sub); SqlCount;
                      BrevoCreateContact contact])).
Proof.
  intros cfg env raw_email raw_name raw_referral w exc sub Hc Hn Hi Hs Hf.
  pose proof (add_to_waitlist_insert_unreachable_world cfg env sub w exc
                Hc Hf Hn Hi) as Hrun.
  unfold table_after_race in Hrun. unfold sequential in Hs.
  rewrite Hs, raced_nil in Hrun. cbn [fst snd] in Hrun.
  destruct (sync_events_clean cfg (now_signup env) (sub_email sub) raw_name
              raw_referral (Z.of_nat (List.length (rows w)) + 1))
    as [contact [Hce Hev]].
  change (name_must_be_clean raw_name) with (sub_name sub) in Hev.
  change raw_referral with (sub_referral_source sub) in Hev.
  rewrite Hev in Hrun.
  exists contact. split; [exact Hce|].
  unfold post_waitlist. apply serve_db_exception. exact Hrun.
Qed.

Lemma contact_is_sent_witness :
  exists contact,
    cc_email contact = "b@x.com" /\
    snd (post_waitlist sample_cfg env_insert_down
           (parse_submission "B@x.com" None None) empty_world) =
    mkWorld [] 1
      [SqlSelectByEmail "b@x.com"; SqlCount; BrevoCreateContact contact].
Proof.
  destruct (contact_is_sent_before_a_failing_insert sample_cfg env_insert_down
              "B@x.com" None None empty_world _
              eq_refl eq_refl eq_refl eq_refl eq_refl)
    as [contact [He Hrun]].
  exists contact. split; [exact He|]. rewrite Hrun. reflexivity.
Defined.

(** ** Reading back what was written *)

(** X6. What a signup wrote is what a later submission of the same
    email reads: the duplicate answer carries the code
    EMAIL_ALREADY_EXISTS and the same [registered_at] as the answer
    that created the entry, namely the clock reading of the insert. *)
Theorem duplicate_reports_the_creation_time :
  forall cfg env1 env2 sub w,
    check_connect env2 = None ->
    response_success (fst (post_waitlist cfg env1 sub w)) = Some (JBool true) ->
    let w1 := snd (post_waitlist cfg env1 sub w) in
    let second := fst (post_waitlist cfg env2 sub w1) in
    json_get "error_code" (http_body second) =
      Some (JStr "EMAIL_ALREADY_EXISTS") /\
    registered_at second = registered_at (fst (post_waitlist cfg env1 sub w)) /\
    registered_at second = Some (JIso (now_created env1)).
Proof.
  intros cfg env1 env2 sub w Hc Hok w1 second. subst second w1.
  destruct (post_waitlist_cases cfg env1 sub w)
    as [(exc & t & n & tr & Hrun & _)
       |[(found & _ & Hrun)
        |(r & n & tr & _ & Ht & _ & _ & Hrun)]];
    rewrite Hrun in *; cbn [fst snd] in *.
  - unfold database_error_response in Hok.
    destruct (is_psycopg2_Error exc); discriminate.
  - discriminate.
  - rewrite (post_waitlist_existing cfg env2 sub _ (stored_row env1 sub w r) Hc).
    + repeat split; reflexivity.
    + cbn [rows]. apply find_app_absent; [exact Ht | reflexivity].
Qed.

Lemma duplicate_reports_the_creation_time_witness :
  registered_at
    (fst (post_waitlist sample_cfg env_auth_failure
            (parse_submission "a@x.com" None None)
            (snd (post_waitlist sample_cfg env_ok
                    (parse_submission "a@x.com" None None) empty_world))))
  = Some (JIso 102).
Proof.
  exact (proj2 (proj2 (duplicate_reports_the_creation_time sample_cfg env_ok
                         env_auth_failure
                         (parse_submission "a@x.com" None None) empty_world
                         eq_refl eq_refl))).
Defined.

Lemma run_requests_count cfg reqs : forall w,
  Forall (fun q : request => sequential (fst q)) reqs ->
  Z.of_nat (List.length (rows (snd (run_requests cfg reqs w)))) =
  Z.of_nat (List.length (rows w)) +
  count_successes (fst (run_requests cfg reqs w)).
Proof.
  unfold count_successes.
  induction reqs as [|[env sub] reqs IH]; intros w Hseq.
  - cbn. lia.
  - inversion Hseq as [|q l Hs Hseq']; subst. cbn [fst] in Hs.
    cbn [run_requests].
    assert (let (resp, w') := post_waitlist cfg env sub w in
            (is_success resp = true /\
             List.length (rows w') = S (List.length (rows w))) \/
            (is_success resp = false /\ rows w' = rows w)) as Hstep.
    { assert (table_after_race env w = rows w) as Ht1.
      { unfold table_after_race. unfold sequential in Hs. rewrite Hs.
        reflexivity. }
      destruct (post_waitlist_cases cfg env sub w)
        as [(exc & t & n & tr & Hrun & Ht)
           |[(found & _ & Hrun)
            |(r & n & tr & _ & _ & _ & _ & Hrun)]];
        rewrite Hrun.
      - right. split.
        + unfold database_error_response.
          destruct (is_psycopg2_Error exc); reflexivity.
        + cbn [rows]. destruct Ht as [->| ->]; [reflexivity | exact Ht1].
      - right. split; reflexivity.
      - left. split; [reflexivity|]. cbn [rows].
        rewrite Ht1, length_app. cbn [List.length]. lia. }
    destruct (post_waitlist cfg env sub w) as [resp w1].
    specialize (IH w1 Hseq').
    destruct (run_requests cfg reqs w1) as [rs w2].
    cbn [fst snd] in *. cbn [filter].
    destruct Hstep as [[Hyes Hlen]|[Hno Hrows]].
    + rewrite Hyes. cbn [List.length]. rewrite IH, Hlen. lia.
    + rewrite Hno, IH, Hrows. lia.
Qed.

(** X7. The count route reports the number of rows: after any run of
    signup requests handled one after the other it answers with the
    count before the run plus the number of requests answered with
    [success=true]; and when the database cannot be reached it answers
    with status 500 and one fixed text, whatever the exception. *)
Theorem count_follows_successful_signups :
  forall cfg reqs w now,
    Forall (fun q : request => sequential (fst q)) reqs ->
    fst (get_count_route None now (snd (run_requests cfg reqs w))) =
      mkHttp 200
        (JObj [("success", JBool true);
               ("count",
                JInt (Z.of_nat (List.length (rows w)) +
                      count_successes (fst (run_requests cfg reqs w))));
               ("timestamp", JIso now)]) /\
    forall exc w',
      get_count_route (Some exc) now w' =
      (http_exception_handler HTTP_500_INTERNAL_SERVER_ERROR
         "Failed to get waitlist count", w').
Proof.
  intros cfg reqs w now Hseq. split.
  - rewrite <- (run_requests_count cfg reqs w Hseq). reflexivity.
  - intros exc w'. unfold get_count_route, serve, get_waitlist_count,
      try_except, bind.
    rewrite db_get_waitlist_count_unreachable. reflexivity.
Qed.

Lemma count_follows_successful_signups_witness :
  json_get "count"
    (http_body
       (fst (get_count_route None 900
               (snd (run_requests sample_cfg mixed_requests
                       (mkWorld [sample_row] 2 []))))))
  = json_get "count"
      (JObj [("count", JInt (1 + count_successes
                                   (fst (run_requests sample_cfg mixed_requests
                                           (mkWorld [sample_row] 2 [])))))]).
Proof.
  rewrite (proj1 (count_follows_successful_signups sample_cfg mixed_requests
                    (mkWorld [sample_row] 2 []) 900
                    ltac:(repeat constructor))).
  reflexivity.
Defined.


(** ** The position sent to Brevo *)

Lemma contact_attributes_position now nm ref position a :
  BrevoService.contact_attributes now nm ref position = Ok a ->
  assoc "WAITLIST_POSITION" a = Some (AttrInt position).
Proof.
  unfold BrevoService.contact_attributes.
  destruct (opt_truthy nm).
  - destruct (PyStr.split_max1 (str_opt nm)) as [|f [|l rest]];
      [discriminate | |];
      destruct (opt_truthy ref); intros H; injection H as <-; reflexivity.
  - destruct (opt_truthy ref); intros H; injection H as <-; reflexivity.
Qed.

Lemma count_up_to_all t tbl r :
  Forall (fun x => created_at x <= t) tbl ->
  created_at r = t ->
  count_up_to t (tbl ++ [r]) = Z.of_nat (List.length tbl) + 1.
Proof.
  intros Hall Hr. unfold count_up_to.
  rewrite filter_app, length_app. simpl. rewrite Hr, Z.leb_refl. simpl.
  replace (filter (fun x => created_at x <=? t) tbl) with tbl.
  - lia.
  - induction Hall as [|x l Hx Hl IH]; simpl; [reflexivity|].
    replace (created_at x <=? t) with true by (symmetry; apply Z.leb_le; lia).
    f_equal. exact IH.
Qed.

(** X8. When the entry is inserted (a new email, the database
    reachable, no request in between, name and referral source accepted
    by the database) and no stored entry is younger than the new one,
    the position sent to Brevo with the contact (the count before the
    insert plus one) is the position reported to the client (the count
    taken after the insert). *)
Theorem position_sent_is_position_reported :
  forall cfg env raw_email raw_name raw_referral w,
    let sub := parse_submission raw_email raw_name raw_referral in
    db_reachable env ->
    sequential env ->
    storable sub ->
    email_taken (sub_email sub) (rows w) = false ->
    Forall (fun r => created_at r <= now_created env) (rows w) ->
    let (resp, w') := post_waitlist cfg env sub w in
    exists contact,
      In (BrevoCreateContact contact) (trace w') /\
      contact_position contact =
        Some (AttrInt (Z.of_nat (List.length (rows w)) + 1)) /\
      response_position resp =
        Some (JInt (Z.of_nat (List.length (rows w)) + 1)).
Proof.
  intros cfg env raw_email raw_name raw_referral w sub (Hc & Hn & Hi) Hs Hst
    Hf Hall.
  unfold sequential in Hs. apply storable_no_NUL in Hst.
  set (position0 := Z.of_nat (List.length (rows w)) + 1).
  pose proof (add_to_waitlist_absent cfg env sub w) as Habs.
  rewrite Hs, raced_nil in Habs. cbn [fst snd] in Habs.
  destruct (add_contact_to_list_returns cfg (create_contact_reply env)
              (now_signup env) (sub_email sub) (sub_name sub)
              (sub_referral_source sub) position0) as [r Hr].
  specialize (Habs r Hc Hn Hi Hf Hr). rewrite Hst, Hf in Habs.
  destruct (contact_attributes_clean (now_signup env) raw_name raw_referral
              position0) as [a Ha].
  change (name_must_be_clean raw_name) with (sub_name sub) in Ha.
  change raw_referral with (sub_referral_source sub) in Ha.
  unfold post_waitlist, serve. rewrite Habs.
  exists (mkCreateContact (sub_email sub) a [BREVO_WAITLIST_ID cfg] true).
  split; [|split].
  - cbn [trace]. fold position0. unfold sync_events. rewrite Ha.
    apply in_or_app. right. simpl. tauto.
  - unfold contact_position. cbn [cc_attributes].
    apply (contact_attributes_position _ _ _ _ _ Ha).
  - unfold response_position.
    cbn [http_body WaitlistResponse_json json_get assoc String.eqb Ascii.eqb
         Bool.eqb data created_response].
    rewrite count_up_to_all; [reflexivity | exact Hall | reflexivity].
Qed.

Lemma position_sent_is_position_reported_witness :
  let (resp, w') :=
    post_waitlist sample_cfg env_auth_failure
      (parse_submission "b@x.com" (Some "Bo") None)
      (mkWorld [sample_row] 2 []) in
  exists contact,
    In (BrevoCreateContact contact) (trace w') /\
    contact_position contact = Some (AttrInt 2) /\
    response_position resp = Some (JInt 2).
Proof.
  apply (position_sent_is_position_reported sample_cfg env_auth_failure
           "b@x.com" (Some "Bo") None (mkWorld [sample_row] 2 [])).
  - repeat split.
  - reflexivity.
  - split; reflexivity.
  - reflexivity.
  - repeat constructor. simpl. lia.
Defined.

(** ** A name of whitespace only *)

(** X9. Called with a name that is not empty but holds whitespace only
    (which the request validator never lets through), the adapter makes
    no remote call: indexing the empty list of name parts raises inside
    the adapter, and the outcome is [failed] with the code
    BREVO_UNEXPECTED_ERROR, whatever Brevo would have answered. *)
Theorem blank_name_fails_without_remote_call :
  forall cfg reply now e s ref position w,
    PyStr.truthy s = true ->
    PyStr.lstrip_by PyStr.is_space s = EmptyString ->
    exists r,
      BrevoService.add_contact_to_list cfg reply now e (Some s) ref position w
        = (Ok r, mkWorld (rows w) (serial w) (trace w)) /\
      BrevoService.sync_status r = FAILED /\
      BrevoService.contact_id r = None /\
      BrevoService.error_code r = Some "BREVO_UNEXPECTED_ERROR".
Proof.
  intros cfg reply now e s ref position w Ht Hblank.
  assert (BrevoService.contact_attributes now (Some s) ref position =
          Raise (IndexError "list index out of range")) as Hattr.
  { unfold BrevoService.contact_attributes, opt_truthy, str_opt.
    rewrite Ht. unfold PyStr.split_max1. rewrite Hblank. reflexivity. }
  destruct (add_contact_to_list_classifies cfg reply now e (Some s) ref
              position w) as (r & Hrun & Hclass & Hid).
  unfold sync_events in Hrun. unfold condition_met in Hclass, Hid.
  rewrite Hattr in Hrun, Hclass, Hid. rewrite app_nil_r in Hrun.
  cbn [condition_of_exn classification contact_id_of] in Hclass, Hid.
  injection Hclass as Hst Hcode.
  exists r. auto.
Qed.

Lemma blank_name_witness :
  exists r,
    BrevoService.add_contact_to_list sample_cfg (Ok 42) 100 "a@x.com"
      (Some "   ") None 1 empty_world = (Ok r, empty_world) /\
    BrevoService.sync_status r = FAILED /\
    BrevoService.contact_id r = None /\
    BrevoService.error_code r = Some "BREVO_UNEXPECTED_ERROR".
Proof.
  exact (blank_name_fails_without_remote_call sample_cfg (Ok 42) 100 "a@x.com"
           "   " None 1 empty_world eq_refl eq_refl).
Defined.

(** ** Startup with dependencies down *)

(** X10. With a valid configuration startup completes whatever the
    state of the database and of Brevo: a failed schema initialisation
    and a failed connection test are reported, not raised. *)
Theorem startup_tolerates_unreachable_dependencies :
  forall cfg env w,
    valid (fst (validate cfg)) = true ->
    exists w',
      startup_event cfg env w =
        (Ok (mkReport (store_reachable env) (sync_reachable env)), w') /\
      rows w' = rows w.
Proof.
  intros cfg env w Hv. unfold startup_event. rewrite Hv. cbn [negb].
  unfold initialize_schema, BrevoService.test_connection, store_reachable,
    sync_reachable.
  unfold bind, try_except, get_db_connection, ret, lift, emit.
  destruct (probe_connect env), (account_reply env) as [acct|exc];
    try destruct (is_ApiException exc); eexists; split; reflexivity.
Qed.

Lemma startup_tolerates_witness :
  exists w',
    startup_event sample_cfg probe_all_down empty_world =
      (Ok (mkReport false false), w') /\
    rows w' = [].
Proof.
  exact (startup_tolerates_unreachable_dependencies sample_cfg probe_all_down
           empty_world eq_refl).
Defined.

(** X11. For an API key given in ASCII and a list identifier given as
    a plain ASCII value, startup completes exactly when the environment gives a
    non-empty database URL, an API key that is not empty once
    whitespace and quotes are stripped, and a list identifier that is an
    integer literal other than zero; a value that is present but empty,
    zero or not a number aborts it like an absent one. *)
Theorem startup_completes_iff_configured :
  forall os_environ env w,
    PyStr.is_ascii (getenv os_environ "BREVO_API_KEY" EmptyString) = true ->
    plain_value (getenv os_environ "BREVO_WAITLIST_ID" "0") = true ->
    (exists report, fst (boot os_environ env w) = Ok report) <->
    (opt_truthy (os_environ "DATABASE_URL") = true /\
     PyStr.truthy (cleaned_key (getenv os_environ "BREVO_API_KEY" EmptyString))
       = true /\
     exists n,
       PyStr.to_Z (getenv os_environ "BREVO_WAITLIST_ID" "0") = Some n /\
       n <> 0).
Proof.
  intros os_environ env w _ _.
  unfold boot, bind, lift, load_Config, cleaned_key.
  destruct (PyStr.to_Z (getenv os_environ "BREVO_WAITLIST_ID" "0")) as [n|].
  - match goal with
    | |- context [startup_event ?c env w] => set (cfg := c)
    end.
    pose proof (validate_valid cfg) as Hv.
    cbn [cfg DATABASE_URL BREVO_API_KEY BREVO_WAITLIST_ID] in Hv.
    destruct (valid (fst (validate cfg))) eqn:Hvalid.
    + symmetry in Hv. apply andb_prop in Hv. destruct Hv as [Hv Hn].
      apply andb_prop in Hv. destruct Hv as [Hd Hk].
      split.
      * intros _. split; [exact Hd|]. split; [exact Hk|].
        exists n. split; [reflexivity|].
        apply negb_true_iff, Z.eqb_neq in Hn. exact Hn.
      * intros _. destruct (startup_event_valid cfg env w Hvalid)
          as (report & w' & Hrun).
        exists report. rewrite Hrun. reflexivity.
    + rewrite (startup_event_invalid cfg env w Hvalid). split.
      * intros [report H]. discriminate.
      * intros (Hd & Hk & m & Hm & Hneq). injection Hm as <-.
        rewrite Hd, Hk in Hv. apply Z.eqb_neq in Hneq. rewrite Hneq in Hv.
        discriminate.
  - split.
    + intros [report H]. discriminate.
    + intros (_ & _ & m & Hm & _). discriminate.
Qed.

Lemma startup_completes_witness :
  (exists report,
      fst (boot environ_quoted_key probe_all_down empty_world) = Ok report) /\
  ~ (exists report,
        fst (boot environ_bad_list probe_ok empty_world) = Ok report).
Proof.
  split.
  - apply (proj2 (startup_completes_iff_configured environ_quoted_key
                    probe_all_down empty_world eq_refl eq_refl)).
    split; [reflexivity|]. split; [reflexivity|].
    exists 7. split; [reflexivity | discriminate].
  - intros H.
    apply (proj1 (startup_completes_iff_configured environ_bad_list probe_ok
                    empty_world eq_refl eq_refl)) in H.
    destruct H as (_ & _ & n & Hn & _). discriminate Hn.
Defined.


(** ** The validators are projections *)

Lemma lower_char_idem c :
  PyStr.lower_char (PyStr.lower_char c) = PyStr.lower_char c.
Proof. destruct c as [[] [] [] [] [] [] [] []]; reflexivity. Qed.

Lemma lower_idem s : PyStr.lower (PyStr.lower s) = PyStr.lower s.
Proof.
  unfold PyStr.lower. induction s as [|c s IH]; [reflexivity|].
  cbn [PyStr.map_chars]. rewrite lower_char_idem, IH. reflexivity.
Qed.

Lemma rstrip_by_idem p s :
  PyStr.rstrip_by p (PyStr.rstrip_by p s) = PyStr.rstrip_by p s.
Proof.
  induction s as [|c s IH]; [reflexivity|].
  cbn [PyStr.rstrip_by].
  destruct (PyStr.rstrip_by p s) as [|d r] eqn:R.
  - destruct (p c) eqn:E; [reflexivity|].
    cbn [PyStr.rstrip_by]. rewrite E. reflexivity.
  - cbn [PyStr.rstrip_by] in *. rewrite IH. reflexivity.
Qed.

Lemma strip_by_idem p s :
  PyStr.strip_by p (PyStr.strip_by p s) = PyStr.strip_by p s.
Proof.
  unfold PyStr.strip_by.
  rewrite rstrip_lstrip, rstrip_by_idem, lstrip_by_idem. reflexivity.
Qed.

(** X12. The field validators are projections: an email or a name that
    went through its validator is left unchanged by a second pass, so a
    submission rebuilt from the stored values is the same submission. *)
Theorem validators_are_idempotent :
  forall raw_email raw_name raw_referral,
    let sub := parse_submission raw_email raw_name raw_referral in
    email_must_be_lowercase (sub_email sub) = sub_email sub /\
    name_must_be_clean (sub_name sub) = sub_name sub /\
    parse_submission (sub_email sub) (sub_name sub) (sub_referral_source sub)
      = sub.
Proof.
  intros raw_email raw_name raw_referral sub.
  assert (email_must_be_lowercase (sub_email sub) = sub_email sub) as He.
  { unfold sub, parse_submission, email_must_be_lowercase. cbn [sub_email].
    rewrite (strip_lower (PyStr.strip (PyStr.lower raw_email))).
    unfold PyStr.strip at 1 2. rewrite strip_by_idem.
    fold (PyStr.strip (PyStr.lower raw_email)).
    rewrite <- strip_lower, lower_idem. reflexivity. }
  assert (name_must_be_clean (sub_name sub) = sub_name sub) as Hn.
  { unfold sub, parse_submission, name_must_be_clean. cbn [sub_name].
    destruct raw_name as [s|]; [|reflexivity].
    destruct (PyStr.truthy s) eqn:T.
    - destruct (PyStr.truthy (PyStr.strip s)); [|reflexivity].
      unfold PyStr.strip. rewrite strip_by_idem. reflexivity.
    - rewrite T. reflexivity. }
  split; [exact He|]. split; [exact Hn|].
  unfold parse_submission at 1. rewrite He, Hn. reflexivity.
Qed.

(** ** One key, two scripts *)

Lemma lstrip_by_absent a s :
  PyStr.mem_char a s = false ->
  PyStr.lstrip_by (fun c => PyStr.mem_char c (String a EmptyString)) s = s.
Proof.
  destruct s as [|d s]; [reflexivity|].
  cbn [PyStr.mem_char PyStr.lstrip_by]. intros H.
  apply orb_false_elim in H. destruct H as [H _].
  rewrite Ascii.eqb_sym, H. reflexivity.
Qed.

Lemma rstrip_by_absent a s :
  PyStr.mem_char a s = false ->
  PyStr.rstrip_by (fun c => PyStr.mem_char c (String a EmptyString)) s = s.
Proof.
  induction s as [|d s IH]; [reflexivity|].
  intros H. cbn [PyStr.mem_char] in H.
  apply orb_false_elim in H. destruct H as [Hd Hs].
  cbn [PyStr.rstrip_by]. rewrite (IH Hs). destruct s; [|reflexivity].
  cbn [PyStr.mem_char]. rewrite Ascii.eqb_sym, Hd. reflexivity.
Qed.

Lemma strip_chars_absent a s :
  PyStr.mem_char a s = false ->
  PyStr.strip_chars (String a EmptyString) s = s.
Proof.
  intros H. unfold PyStr.strip_chars, PyStr.strip_by.
  rewrite rstrip_by_absent, lstrip_by_absent; [reflexivity | exact H | exact H].
Qed.

Lemma lstrip_by_keeps_absent q a s :
  PyStr.mem_char a s = false ->
  PyStr.mem_char a (PyStr.lstrip_by q s) = false.
Proof.
  induction s as [|d s IH]; [reflexivity|].
  cbn [PyStr.lstrip_by]. intros H. destruct (q d); [|exact H].
  cbn [PyStr.mem_char] in H. apply orb_false_elim in H. apply IH. tauto.
Qed.

Lemma rstrip_by_keeps_absent q a s :
  PyStr.mem_char a s = false ->
  PyStr.mem_char a (PyStr.rstrip_by q s) = false.
Proof.
  induction s as [|d s IH]; [reflexivity|].
  cbn [PyStr.rstrip_by PyStr.mem_char]. intros H.
  apply orb_false_elim in H. destruct H as [Hd Hs]. specialize (IH Hs).
  destruct (PyStr.rstrip_by q s) as [|e r].
  - destruct (q d); [reflexivity|]. cbn [PyStr.mem_char]. rewrite Hd. reflexivity.
  - cbn [PyStr.mem_char] in *. rewrite Hd. exact IH.
Qed.

Lemma strip_by_keeps_absent q a s :
  PyStr.mem_char a s = false ->
  PyStr.mem_char a (PyStr.strip_by q s) = false.
Proof.
  intros H. unfold PyStr.strip_by.
  apply lstrip_by_keeps_absent, rstrip_by_keeps_absent. exact H.
Qed.

(** X13. The application strips double quotes and then single quotes
    from the API key, the key-check script single quotes and then double
    quotes.  For a value that does not contain both kinds of quote the
    two orders give the same key, so the script tests the key the
    application uses. *)
Theorem key_check_script_tests_the_application_key :
  forall os_environ cfg,
    load_Config os_environ = Ok cfg ->
    PyStr.mem_char single_quote
      (getenv os_environ "BREVO_API_KEY" EmptyString) = false \/
    PyStr.mem_char double_quote
      (getenv os_environ "BREVO_API_KEY" EmptyString) = false ->
    DebugBrevoKey.clean_key (getenv os_environ "BREVO_API_KEY" EmptyString)
    = BREVO_API_KEY cfg.
Proof.
  intros os_environ cfg Hload Hq. unfold load_Config in Hload.
  destruct (PyStr.to_Z _); [|discriminate]. injection Hload as <-.
  cbn [BREVO_API_KEY]. unfold DebugBrevoKey.clean_key.
  set (v := getenv os_environ "BREVO_API_KEY" EmptyString) in *.
  unfold squote, dquote. fold single_quote. fold double_quote.
  destruct Hq as [H|H].
  - assert (PyStr.mem_char single_quote (PyStr.strip v) = false) as H1
      by (apply strip_by_keeps_absent; exact H).
    rewrite (strip_chars_absent single_quote (PyStr.strip v) H1).
    rewrite (strip_chars_absent single_quote
               (PyStr.strip_chars (String double_quote EmptyString)
                  (PyStr.strip v))); [reflexivity|].
    apply strip_by_keeps_absent. exact H1.
  - assert (PyStr.mem_char double_quote (PyStr.strip v) = false) as H1
      by (apply strip_by_keeps_absent; exact H).
    rewrite (strip_chars_absent double_quote (PyStr.strip v) H1).
    rewrite (strip_chars_absent double_quote
               (PyStr.strip_chars (String single_quote EmptyString)
                  (PyStr.strip v))); [reflexivity|].
    apply strip_by_keeps_absent. exact H1.
Qed.

Lemma key_check_script_witness :
  DebugBrevoKey.clean_key (getenv environ_quoted_key "BREVO_API_KEY" EmptyString)
  = "xkeysib-0123".
Proof.
  apply (key_check_script_tests_the_application_key environ_quoted_key
           (mkConfig (Some "postgresql://db/waitlist") "xkeysib-0123" 7
              ["http://localhost:5173"; "http://localhost:3000";
               "http://127.0.0.1:5173"; EmptyString])).
  - reflexivity.
  - left. reflexivity.
Defined.


(** ** Routes *)

Lemma serve_frontend_api fs full_path :
  prefix "api" full_path = true ->
  frontend_route fs full_path =
  SendJson (http_exception_handler 404 "API route not found").
Proof.
  intros H. unfold frontend_route, serve_frontend. rewrite H. reflexivity.
Qed.

Lemma dispatch_from_handled routes : forall partial method path e,
  dispatch_from partial routes method path = Handled e ->
  exists r, In r routes /\ route_matches r method path = FULL e.
Proof.
  induction routes as [|r routes IH]; intros partial method path e H.
  - cbn in H. destruct partial; discriminate.
  - cbn [dispatch_from] in H.
    destruct (route_matches r method path) as [e0| |] eqn:Hm.
    + injection H as <-. exists r. split; [left; reflexivity | exact Hm].
    + destruct (IH _ _ _ _ H) as (r' & Hin & Hr'). exists r'. split; [right|]; assumption.
    + destruct (IH _ _ _ _ H) as (r' & Hin & Hr'). exists r'. split; [right|]; assumption.
Qed.

(** X14. The catch-all route is registered before the three GET routes
    under [/api], and the router hands a request to the first route that
    matches: so no request is ever dispatched to [health_check],
    [get_waitlist_count] or [brevo_connection_status]; a GET for one of
    their paths goes to [serve_frontend], which answers 404 with the
    text of a missing API route; the POST route of the signup is
    reached. *)
Theorem catch_all_shadows_the_get_api_routes :
  forall assets_exist,
    (forall method path e,
        dispatch (app_routes assets_exist) method path = Handled e ->
        declared_after_catch_all e = false) /\
    (forall fs path,
        In path ["/api/health"; "/api/waitlist/count"; "/api/brevo/status"] ->
        exists full_path,
          dispatch (app_routes assets_exist) GET path =
            Handled (ServeFrontend full_path) /\
          frontend_route fs full_path =
            SendJson (http_exception_handler 404 "API route not found")) /\
    dispatch (app_routes assets_exist) POST "/api/waitlist" =
      Handled AddToWaitlist.
Proof.
  intros assets_exist. split; [|split].
  - intros method path e H.
    unfold dispatch, app_routes in H.
    destruct (String.eqb_spec path "/api/health") as [->|N1].
    { destruct assets_exist, method; vm_compute in H;
        first [discriminate | injection H as <-; reflexivity]. }
    destruct (String.eqb_spec path ("/api/health" ++ nl)) as [->|N1'].
    { destruct assets_exist, method; vm_compute in H;
        first [discriminate | injection H as <-; reflexivity]. }
    destruct (String.eqb_spec path "/api/waitlist/count") as [->|N2].
    { destruct assets_exist, method; vm_compute in H;
        first [discriminate | injection H as <-; reflexivity]. }
    destruct (String.eqb_spec path ("/api/waitlist/count" ++ nl)) as [->|N2'].
    { destruct assets_exist, method; vm_compute in H;
        first [discriminate | injection H as <-; reflexivity]. }
    destruct (String.eqb_spec path "/api/brevo/status") as [->|N3].
    { destruct assets_exist, method; vm_compute in H;
        first [discriminate | injection H as <-; reflexivity]. }
    destruct (String.eqb_spec path ("/api/brevo/status" ++ nl)) as [->|N3'].
    { destruct assets_exist, method; vm_compute in H;
        first [discriminate | injection H as <-; reflexivity]. }
    apply String.eqb_neq in N1, N2, N3, N1', N2', N3'.
    destruct (dispatch_from_handled _ _ _ _ _ H) as (r & Hin & Hfull).
    unfold route_matches in Hfull.
    destruct assets_exist; cbn [app In] in Hin;
      repeat (destruct Hin as [<-|Hin]; [|]); try contradiction;
      cbn [route_pattern route_methods route_endpoint match_path] in Hfull;
      rewrite ?N1, ?N2, ?N3, ?N1', ?N2', ?N3' in Hfull;
      cbn [orb] in Hfull;
      try discriminate;
      try (destruct (drop_prefix _ path) as [rest|]; [|discriminate];
           destruct (match_rest rest); [|discriminate]);
      repeat match type of Hfull with
             | context [if ?b then _ else _] => destruct b
             end;
      try discriminate;
      try (injection Hfull as <-; reflexivity).
  - intros fs path Hin.
    destruct Hin as [<-|[<-|[<-|[]]]];
      (eexists; split;
       [destruct assets_exist; reflexivity
       |apply serve_frontend_api; reflexivity]).
  - destruct assets_exist; reflexivity.
Qed.

Lemma catch_all_shadows_witness :
  declared_after_catch_all (ServeFrontend "api/health") = false.
Proof.
  apply (proj1 (catch_all_shadows_the_get_api_routes true) GET "/api/health").
  reflexivity.
Defined.

(** ** The frontend route *)

Lemma frontend_route_absolute fs p :
  path_exists fs ("/" ++ p) = true ->
  path_isfile fs ("/" ++ p) = true ->
  frontend_route fs ("/" ++ p) = SendFile ("/" ++ p).
Proof.
  intros He Hf. unfold frontend_route, serve_frontend, join_out.
  change ("/" ++ p) with (String "/" p) in *.
  assert (prefix "api" (String "/" p) = false) as Hapi.
  { cbn [prefix]. destruct (ascii_dec "a" "/"); [discriminate | reflexivity]. }
  assert (prefix "/" (String "/" p) = true) as Habs.
  { cbn [prefix]. destruct (ascii_dec "/" "/"); [|congruence].
    destruct p; reflexivity. }
  rewrite Hapi, Habs, He, Hf. reflexivity.
Qed.

Lemma chomp_no_LF s : PyStr.mem_char LF s = false -> chomp s = s.
Proof.
  induction s as [|c s IH]; [reflexivity|].
  cbn [PyStr.mem_char]. intros H.
  apply orb_false_elim in H. destruct H as [Hc Hs].
  cbn [chomp]. destruct s as [|d s].
  - rewrite Ascii.eqb_sym, Hc. reflexivity.
  - rewrite (IH Hs). reflexivity.
Qed.

Lemma match_rest_no_LF s :
  PyStr.mem_char LF s = false -> match_rest s = Some s.
Proof.
  intros H. unfold match_rest. rewrite (chomp_no_LF s H), H. reflexivity.
Qed.

(** X15. The file served is not confined to [out]: a request path with
    a doubled leading slash (and no line feed in it) reaches
    [serve_frontend] with a parameter that starts with a slash,
    [os.path.join] then drops [out], and an existing file at that
    absolute path is sent. *)
Theorem absolute_path_is_served_from_outside_out :
  forall assets_exist fs p,
    PyStr.mem_char LF p = false ->
    path_exists fs ("/" ++ p) = true ->
    path_isfile fs ("/" ++ p) = true ->
    dispatch (app_routes assets_exist) GET ("//" ++ p) =
      Handled (ServeFrontend ("/" ++ p)) /\
    frontend_route fs ("/" ++ p) = SendFile ("/" ++ p).
Proof.
  intros assets_exist fs p Hlf He Hf. split.
  - assert (match_rest (String "/" p) = Some (String "/" p)) as Hm.
    { apply match_rest_no_LF. cbn [PyStr.mem_char]. rewrite Hlf. reflexivity. }
    change ("//" ++ p) with (String "/" (String "/" p)).
    change ("/" ++ p) with (String "/" p).
    unfold dispatch, app_routes.
    destruct assets_exist;
      cbn [app dispatch_from route_matches route_pattern route_methods
           route_endpoint match_path String.eqb Ascii.eqb Bool.eqb orb andb
           append nl drop_prefix existsb http_method_eqb];
      unfold route_matches, match_path;
      cbn [route_pattern drop_prefix Ascii.eqb Bool.eqb];
      rewrite Hm; reflexivity.
  - apply frontend_route_absolute; assumption.
Qed.

Lemma absolute_path_witness :
  dispatch (app_routes true) GET "//etc/hostname" =
    Handled (ServeFrontend "/etc/hostname") /\
  frontend_route fs_built "/etc/hostname" = SendFile "/etc/hostname".
Proof.
  exact (absolute_path_is_served_from_outside_out true fs_built "etc/hostname"
           eq_refl eq_refl eq_refl).
Defined.

(** A path with a line feed inside matches no route of the
    application: the catch-all pattern does not cross a line. *)
Example path_with_line_feed_is_not_found :
  dispatch (app_routes true) GET ("/a" ++ nl ++ "b") = NotFound /\
  dispatch (app_routes true) GET ("/api/health" ++ nl) =
    Handled (ServeFrontend "api/health").
Proof. split; reflexivity. Qed.

(** ** The contact-test script *)

Lemma test_add_contact_returns list_id remote e attributes w :
  only_api_errors remote ->
  DebugBrevoContact.test_add_contact list_id remote e attributes w =
  (Ok (match remote (mkCreateContact e attributes [list_id] true) with
       | Ok _ => true
       | Raise _ => false
       end),
   mkWorld (rows w) (serial w)
     (trace w ++ [BrevoCreateContact
                    (mkCreateContact e attributes [list_id] true)])).
Proof.
  intros Hapi. unfold DebugBrevoContact.test_add_contact, try_except, bind,
    emit, lift, ret.
  destruct (remote (mkCreateContact e attributes [list_id] true)) as [n|exc] eqn:R.
  - reflexivity.
  - rewrite (Hapi _ _ R). reflexivity.
Qed.

Lemma append_inj_l (s x y : string) : s ++ x = s ++ y -> x = y.
Proof.
  induction s as [|c s IH]; cbn [append]; intros H; [exact H|].
  injection H as H. apply IH. exact H.
Qed.

(** X16. The contact-test script, against a remote that fails with API
    errors only.  Its first request is the bare contact
    [debug_test_<seconds>_min@example.com].  When the remote refuses that
    contact, the script stops with exit status 1 and has made that one
    request; when the remote accepts it, the script ends with status 0
    after seven requests, of which it is the first, whatever the later
    answers.  Every request is for the configured list with updating
    enabled, and no two requests use the same address. *)
Theorem contact_script_stops_or_runs_seven_tests :
  forall list_id remote seconds today w,
    only_api_errors remote ->
    let first :=
      mkCreateContact
        (("debug_test_" ++ PyStr.of_Z seconds) ++ "_min@example.com")
        [] [list_id] true in
    exists status requests,
      DebugBrevoContact.script list_id remote seconds today w =
        (Ok status,
         mkWorld (rows w) (serial w)
           (trace w ++ map BrevoCreateContact requests)) /\
      match remote first with
      | Raise _ => status = 1 /\ requests = [first]
      | Ok _ =>
          status = 0 /\ List.length requests = 7%nat /\
          hd_error requests = Some first
      end /\
      Forall (fun c => cc_list_ids c = [list_id] /\ cc_update_enabled c = true)
        requests /\
      NoDup (map cc_email requests).
Proof.
  intros list_id remote seconds today w Hapi first. subst first.
  unfold DebugBrevoContact.script, DebugBrevoContact.full_attributes.
  set (base := "debug_test_" ++ PyStr.of_Z seconds).
  unfold bind. rewrite (test_add_contact_returns _ _ _ _ _ Hapi).
  destruct (remote (mkCreateContact (base ++ "_min@example.com") [] [list_id] true))
    as [n|exc].
  - rewrite (test_add_contact_returns _ _ _ _ _ Hapi).
    cbn [DebugBrevoContact.test_each]. unfold bind.
    repeat rewrite (test_add_contact_returns _ _ _ _ _ Hapi).
    cbn [rows serial trace]. unfold ret.
    exists 0. eexists.
    split.
    + f_equal. f_equal. rewrite <- !app_assoc. cbn [app].
      instantiate (1 := [_; _; _; _; _; _; _]). reflexivity.
    + split; [repeat split|].
      split; [repeat constructor|].
      cbn [map cc_email].
      repeat constructor; cbn [In];
        intros H; repeat (destruct H as [H|H]; [apply append_inj_l in H; discriminate|]);
        exact H.
  - unfold ret. exists 1. eexists.
    split.
    + instantiate (1 := [_]). reflexivity.
    + split; [split; reflexivity|].
      split; repeat constructor. intros [].
Qed.

Lemma contact_script_witness :
  fst (DebugBrevoContact.script 7 remote_refusing 1700000000 100 empty_world)
    = Ok 1 /\
  fst (DebugBrevoContact.script 7 remote_without_attributes 1700000000 100
         empty_world) = Ok 0.
Proof.
  split.
  - destruct (contact_script_stops_or_runs_seven_tests 7 remote_refusing
                1700000000 100 empty_world)
      as (status & requests & Hrun & Hout & _).
    + intros c e H. injection H as <-. reflexivity.
    + cbv zeta in Hout. cbn [remote_refusing] in Hout.
      destruct Hout as [-> _]. rewrite Hrun. reflexivity.
  - destruct (contact_script_stops_or_runs_seven_tests 7
                remote_without_attributes 1700000000 100 empty_world)
      as (status & requests & Hrun & Hout & _).
    + intros c e H. unfold remote_without_attributes in H.
      destruct (cc_attributes c); [discriminate|].
      injection H as <-. reflexivity.
    + cbv zeta in Hout. cbn [remote_without_attributes cc_attributes] in Hout.
      destruct Hout as [-> _]. rewrite Hrun. reflexivity.
Defined.

(** ** Origins *)

(** X17. A configuration loaded from the environment always holds the
    three built-in local origins, so its validation never issues the
    warning about missing origins; validation removes the empty entry
    left by an absent or empty [FRONTEND_URL] and keeps everything
    else. *)
Theorem loaded_configuration_never_warns :
  forall os_environ cfg,
    load_Config os_environ = Ok cfg ->
    warnings (fst (validate cfg)) = [] /\
    ALLOWED_ORIGINS (snd (validate cfg)) =
      (["http://localhost:5173"; "http://localhost:3000";
        "http://127.0.0.1:5173"] ++
       (if PyStr.truthy (getenv os_environ "FRONTEND_URL" EmptyString)
        then [getenv os_environ "FRONTEND_URL" EmptyString] else []))%list.
Proof.
  intros os_environ cfg Hload. unfold load_Config in Hload.
  destruct (PyStr.to_Z _); [|discriminate]. injection Hload as <-.
  unfold validate. cbn [fst snd warnings ALLOWED_ORIGINS filter PyStr.truthy app].
  destruct (PyStr.truthy (getenv os_environ "FRONTEND_URL" EmptyString));
    split; reflexivity.
Qed.

Lemma loaded_configuration_never_warns_witness :
  exists cfg,
    load_Config environ_without_origin = Ok cfg /\
    warnings (fst (validate cfg)) = [].
Proof.
  eexists. split; [reflexivity|].
  apply (proj1 (loaded_configuration_never_warns environ_without_origin _
                  eq_refl)).
Defined.
